(** * Camera_cv.py: the frame-acquisition and recording pipeline

    A shallow embedding of class [Camera] of [Camera_cv.py]: the rolling
    frame-rate window, the one-slot display mailbox, the queue of frames
    awaiting write-out, the last-good-frame fallback, and the start/stop
    protocol of a recording.

    Every method is a function in a small state-and-exception monad over the
    record [Camera], which holds the attributes of the Python object.  Numpy
    arrays live in a heap inside that record and are passed by reference, as
    in Python, so that a text drawn into a frame is seen by every holder of
    it.  What the object sends out (signals, warnings, printed lines) is
    appended to a trace.

    A method runs to completion before the next one starts.  What other
    threads do in between (the recorder thread taking frames and counting
    writes, the GUI clearing a flag) is supplied as an explicit script; a
    loop that outlives its script ends as [Pending].  Times are integers of
    microseconds and rates exact rationals, where Python has doubles. *)

From Stdlib Require Import ZArith QArith List String Lia Bool DecimalString.
From stdpp Require Import base list strings gmap.
Import ListNotations.
Open Scope Z_scope.

(** ** Values *)

(** [datetime.now()]: a naive local time with microsecond resolution, kept as
    the number of microseconds since an arbitrary origin. *)
Definition datetime := Z.

(** [timedelta.total_seconds()].  Python returns the nearest double; the
    model keeps the exact quotient. *)
Definition total_seconds (micro : Z) : Q := micro # 1000000.

(** What [capture.read()] hands back as its second component: an image with
    some number of channels, or [None]. *)
Record Image := { img_id : nat; img_channels : nat }.

(** Pixel content of an array held by the camera object. *)
Inductive Pixels :=
| Zeros
| Rgb (src : nat)
| Gray (src : nat).

(** A numpy array on the Python heap.  [channels] is 3 for a height x width
    x 3 array and 1 for a two-dimensional one; [overlays] are the texts
    that [cv2.putText] has drawn into it, with their positions. *)
Record FrameObj := {
  channels : nat;
  pix : Pixels;
  overlays : list (string * Z * Z)
}.

(** Arrays are shared by reference between [empty_frame], [dispframe] and
    [recframes]: a reference is an index into the heap of the state. *)
Definition ref := nat.

(** The [cv2.VideoCapture] object. *)
Record Capture := {
  cap_width : Z;
  cap_height : Z;
  cap_fps : Z;
  cap_opened : bool
}.

(** The [VideoRecording] object, as far as [Camera] looks at it. *)
Record Recorder := {
  rec_id : nat;
  rec_opened : bool;
  rec_fps : Q;
  rec_resolution : Z * Z;
  rec_color : bool;
  rec_write_count : Z
}.

Inductive Exn :=
| AttributeError
| TypeError
| ValueError
| Cv2Error.

(** Everything the object sends to the outside, in order of occurrence. *)
Inductive Event :=
| Warned (msg : string)            (* warnings.warn *)
| Printed (line : string)          (* print *)
| ErrorRaised (msg : string)       (* sig_raise_error.emit *)
| TimestampSet (msg : string)      (* sig_set_timestamp.emit *)
| NewFrame (slot : nat)            (* sig_new_frame delivered to a recorder *)
| ThreadStarted (slot : nat)       (* recordingThread.start *)
| ThreadStopped                    (* recordingThread.quit and wait *)
| Released (slot : nat)            (* recording.release *)
| Slept (ms : Z).                  (* QThread.msleep *)

(** The functions of the platform that format times.  [strftime fmt t] is
    [t.strftime(fmt)]; [daynum10 t] is ['{:.10f}'.format(date2num(t))],
    a double printed with ten decimals. *)
Class Platform := {
  strftime : string -> datetime -> string;
  daynum10 : datetime -> string
}.

(** ['{}'.format(n)] for an integer. *)
Definition str_Z (z : Z) : string := NilZero.string_of_int (Z.to_int z).

(** ** The state of a [Camera] object *)

Record Camera := {
  triggered : bool;
  capture : option Capture;
  width : Z;
  height : Z;
  framerate : Q;
  color : bool;
  saving : bool;
  continuous : option bool;          (* absent until start/stop sets it *)
  frame_dts : list datetime;
  recframes : list (ref * string);
  dispframe : option (ref * datetime * Q);
  empty_frame : ref;
  heap : list FrameObj;
  recording : option Recorder;
  recordingThread : option nat;
  slots : list nat;                  (* recorders connected to sig_new_frame *)
  mutex : bool;                      (* is the QMutex held *)
  trace : list Event
}.

Definition set_saving (b : bool) (s : Camera) : Camera :=
  {| triggered := triggered s; capture := capture s; width := width s;
     height := height s; framerate := framerate s; color := color s;
     saving := b; continuous := continuous s; frame_dts := frame_dts s;
     recframes := recframes s; dispframe := dispframe s;
     empty_frame := empty_frame s; heap := heap s; recording := recording s;
     recordingThread := recordingThread s; slots := slots s;
     mutex := mutex s; trace := trace s |}.

Definition set_continuous (c : option bool) (s : Camera) : Camera :=
  {| triggered := triggered s; capture := capture s; width := width s;
     height := height s; framerate := framerate s; color := color s;
     saving := saving s; continuous := c; frame_dts := frame_dts s;
     recframes := recframes s; dispframe := dispframe s;
     empty_frame := empty_frame s; heap := heap s; recording := recording s;
     recordingThread := recordingThread s; slots := slots s;
     mutex := mutex s; trace := trace s |}.

Definition set_frame_dts (l : list datetime) (s : Camera) : Camera :=
  {| triggered := triggered s; capture := capture s; width := width s;
     height := height s; framerate := framerate s; color := color s;
     saving := saving s; continuous := continuous s; frame_dts := l;
     recframes := recframes s; dispframe := dispframe s;
     empty_frame := empty_frame s; heap := heap s; recording := recording s;
     recordingThread := recordingThread s; slots := slots s;
     mutex := mutex s; trace := trace s |}.

Definition set_recframes (q : list (ref * string)) (s : Camera) : Camera :=
  {| triggered := triggered s; capture := capture s; width := width s;
     height := height s; framerate := framerate s; color := color s;
     saving := saving s; continuous := continuous s; frame_dts := frame_dts s;
     recframes := q; dispframe := dispframe s;
     empty_frame := empty_frame s; heap := heap s; recording := recording s;
     recordingThread := recordingThread s; slots := slots s;
     mutex := mutex s; trace := trace s |}.

Definition set_dispframe (d : option (ref * datetime * Q)) (s : Camera) : Camera :=
  {| triggered := triggered s; capture := capture s; width := width s;
     height := height s; framerate := framerate s; color := color s;
     saving := saving s; continuous := continuous s; frame_dts := frame_dts s;
     recframes := recframes s; dispframe := d;
     empty_frame := empty_frame s; heap := heap s; recording := recording s;
     recordingThread := recordingThread s; slots := slots s;
     mutex := mutex s; trace := trace s |}.

Definition set_empty_frame (r : ref) (s : Camera) : Camera :=
  {| triggered := triggered s; capture := capture s; width := width s;
     height := height s; framerate := framerate s; color := color s;
     saving := saving s; continuous := continuous s; frame_dts := frame_dts s;
     recframes := recframes s; dispframe := dispframe s;
     empty_frame := r; heap := heap s; recording := recording s;
     recordingThread := recordingThread s; slots := slots s;
     mutex := mutex s; trace := trace s |}.

Definition set_heap (h : list FrameObj) (s : Camera) : Camera :=
  {| triggered := triggered s; capture := capture s; width := width s;
     height := height s; framerate := framerate s; color := color s;
     saving := saving s; continuous := continuous s; frame_dts := frame_dts s;
     recframes := recframes s; dispframe := dispframe s;
     empty_frame := empty_frame s; heap := h; recording := recording s;
     recordingThread := recordingThread s; slots := slots s;
     mutex := mutex s; trace := trace s |}.

Definition set_recording (r : option Recorder) (s : Camera) : Camera :=
  {| triggered := triggered s; capture := capture s; width := width s;
     height := height s; framerate := framerate s; color := color s;
     saving := saving s; continuous := continuous s; frame_dts := frame_dts s;
     recframes := recframes s; dispframe := dispframe s;
     empty_frame := empty_frame s; heap := heap s; recording := r;
     recordingThread := recordingThread s; slots := slots s;
     mutex := mutex s; trace := trace s |}.

Definition set_recordingThread (t : option nat) (s : Camera) : Camera :=
  {| triggered := triggered s; capture := capture s; width := width s;
     height := height s; framerate := framerate s; color := color s;
     saving := saving s; continuous := continuous s; frame_dts := frame_dts s;
     recframes := recframes s; dispframe := dispframe s;
     empty_frame := empty_frame s; heap := heap s; recording := recording s;
     recordingThread := t; slots := slots s;
     mutex := mutex s; trace := trace s |}.

Definition set_slots (l : list nat) (s : Camera) : Camera :=
  {| triggered := triggered s; capture := capture s; width := width s;
     height := height s; framerate := framerate s; color := color s;
     saving := saving s; continuous := continuous s; frame_dts := frame_dts s;
     recframes := recframes s; dispframe := dispframe s;
     empty_frame := empty_frame s; heap := heap s; recording := recording s;
     recordingThread := recordingThread s; slots := l;
     mutex := mutex s; trace := trace s |}.

Definition set_mutex (b : bool) (s : Camera) : Camera :=
  {| triggered := triggered s; capture := capture s; width := width s;
     height := height s; framerate := framerate s; color := color s;
     saving := saving s; continuous := continuous s; frame_dts := frame_dts s;
     recframes := recframes s; dispframe := dispframe s;
     empty_frame := empty_frame s; heap := heap s; recording := recording s;
     recordingThread := recordingThread s; slots := slots s;
     mutex := b; trace := trace s |}.

Definition set_capture (c : option Capture) (s : Camera) : Camera :=
  {| triggered := triggered s; capture := c; width := width s;
     height := height s; framerate := framerate s; color := color s;
     saving := saving s; continuous := continuous s; frame_dts := frame_dts s;
     recframes := recframes s; dispframe := dispframe s;
     empty_frame := empty_frame s; heap := heap s; recording := recording s;
     recordingThread := recordingThread s; slots := slots s;
     mutex := mutex s; trace := trace s |}.

Definition logs (es : list Event) (s : Camera) : Camera :=
  {| triggered := triggered s; capture := capture s; width := width s;
     height := height s; framerate := framerate s; color := color s;
     saving := saving s; continuous := continuous s; frame_dts := frame_dts s;
     recframes := recframes s; dispframe := dispframe s;
     empty_frame := empty_frame s; heap := heap s; recording := recording s;
     recordingThread := recordingThread s; slots := slots s;
     mutex := mutex s; trace := trace s ++ es |}.

Definition log (e : Event) (s : Camera) : Camera := logs [e] s.

(** ** The monad of methods *)

(** A call returns a value, raises, never returns because it waits for a
    mutex that nobody will release, or is still inside a loop when the
    script of the other threads ends. *)
Inductive Res (A : Type) : Type :=
| Ok (a : A) (s : Camera)
| Raise (e : Exn) (s : Camera)
| Blocked (s : Camera)
| Pending (s : Camera).
Arguments Ok {A} a s.
Arguments Raise {A} e s.
Arguments Blocked {A} s.
Arguments Pending {A} s.

Definition M (A : Type) : Type := Camera -> Res A.

Definition ret {A} (a : A) : M A := fun s => Ok a s.

Definition bind {A B} (m : M A) (k : A -> M B) : M B :=
  fun s =>
    match m s with
    | Ok a s' => k a s'
    | Raise e s' => Raise e s'
    | Blocked s' => Blocked s'
    | Pending s' => Pending s'
    end.

Notation "x <- m ;; k" := (bind m (fun x => k))
  (at level 100, m at next level, right associativity).
Notation "m ;;; k" := (bind m (fun _ => k))
  (at level 100, right associativity).

Definition raise {A} (e : Exn) : M A := fun s => Raise e s.
Definition gets {A} (f : Camera -> A) : M A := fun s => Ok (f s) s.
Definition modify (f : Camera -> Camera) : M unit := fun s => Ok tt (f s).
Definition emit (e : Event) : M unit := modify (log e).

(** [try: m  except: h], with a bare [except] that catches everything. *)
Definition try_except {A} (m h : M A) : M A :=
  fun s => match m s with Raise _ s' => h s' | r => r end.

(** [self.mutex.lock()] and [unlock()].  The QMutex is not recursive. *)
Definition lock : M unit :=
  fun s => if mutex s then Blocked s else Ok tt (set_mutex true s).
Definition unlock : M unit := modify (set_mutex false).

(** ** Collaborators outside the module *)

(** The configuration store [control.cfg]. *)
Record Config := {
  video_xy : Z * Z;
  video_fps : Q;
  video_color : bool
}.

(** One pass through [grab_frame] as the outside world decides it: what
    [capture.read()] returns, what [datetime.now()] returns, and the text
    [str(control.main.remote_layout.speed)] when [control.options.remote]
    is set. *)
Record Grab := {
  g_flag : bool;
  g_frame : option Image;
  g_now : datetime;
  g_remote : option string
}.

(** What [VideoRecording(...)] turns out to be: its identity, whether
    [isOpened()] holds, and the write count it starts from. *)
Record Opening := {
  o_id : nat;
  o_opened : bool;
  o_count : Z
}.

(** What the recorder thread does while [stop_saving] sleeps: it calls
    [get_recframe] some number of times and its write count grows. *)
Record Tick := {
  t_pops : nat;
  t_writes : nat
}.


Inductive ColorCode := COLOR_BGR2RGB | COLOR_BGR2GRAY.

(** [cv2.cvtColor] for the two codes used here: it raises on [None] and on
    an input that has neither 3 nor 4 channels, and otherwise returns a new
    array with 3 channels (RGB) or a two-dimensional one (GRAY). *)
Definition cvtColor (frame : option Image) (code : ColorCode) : option FrameObj :=
  match frame with
  | None => None
  | Some im =>
      if ((img_channels im =? 3) || (img_channels im =? 4))%nat then
        Some match code with
             | COLOR_BGR2RGB =>
                 {| channels := 3; pix := Rgb (img_id im); overlays := [] |}
             | COLOR_BGR2GRAY =>
                 {| channels := 1; pix := Gray (img_id im); overlays := [] |}
             end
      else None
  end.

Definition nl : string := String (Ascii.ascii_of_nat 10) EmptyString.
Definition tab : string := String (Ascii.ascii_of_nat 9) EmptyString.

(** ** Module-level functions *)

(** A new array enters the heap and is known by its index. *)
Definition alloc (o : FrameObj) : M ref :=
  fun s => Ok (length (heap s)) (set_heap (heap s ++ [o]) s).

Definition cvt (frame : option Image) (code : ColorCode) : M ref :=
  match cvtColor frame code with
  | Some o => alloc o
  | None => raise Cv2Error
  end.

Definition brg2rgb (frame : option Image) : M ref := cvt frame COLOR_BGR2RGB.

Definition brg2grayscale (frame : option Image) : M ref := cvt frame COLOR_BGR2GRAY.

(** ** Construction *)

(** [np.zeros((height, width, 3))], then [empty_frame[:, :, 0]] when
    [self.color] is set. *)
Definition initial_empty_frame (c : bool) : FrameObj :=
  {| channels := if c then 1%nat else 3%nat; pix := Zeros; overlays := [] |}.

(** [Camera.__init__], with [dev] the device that [open] obtains from
    [cv2.VideoCapture(device_no)]. *)
Definition init (cfg : Config) (dev : Capture) : Camera :=
  {| triggered := false; capture := Some dev;
     width := fst (video_xy cfg); height := snd (video_xy cfg);
     framerate := video_fps cfg; color := video_color cfg;
     saving := false; continuous := None; frame_dts := []; recframes := [];
     dispframe := None; empty_frame := 0%nat;
     heap := [initial_empty_frame (video_color cfg)];
     recording := None; recordingThread := None; slots := [];
     mutex := false; trace := [] |}.

(** ** The rolling rate window *)

(** [frame_dts.append(dtime)], then [popleft()] when longer than 100. *)
Definition record_dtime (dtime : datetime) (dts : list datetime) : list datetime :=
  let dts' := dts ++ [dtime] in
  if (100 <? length dts')%nat then tail dts' else dts'.

(** The value of [fr] computed from the window. *)
Definition fr_of (dts : list datetime) : Q :=
  if (1 <? length dts)%nat then
    match head dts, last dts with
    | Some first, Some newest =>
        let dur := total_seconds (newest - first) in
        if Qlt_le_dec 0 dur then inject_Z (Z.of_nat (length dts)) / dur else 0%Q
    | _, _ => 0%Q
    end
  else 0%Q.

(** ** Accessors *)

Definition get_resolution : M (Z * Z) :=
  cap <- gets capture ;;
  match cap with
  | Some c => ret (cap_width c, cap_height c)
  | None => raise ValueError
  end.


Definition get_dispframe : M (option (ref * datetime * Q)) :=
  lock ;;;
  d <- gets dispframe ;;
  unlock ;;;
  modify (set_dispframe None) ;;;
  ret d.

Definition get_recframe : M (option (ref * string)) :=
  lock ;;;
  q <- gets recframes ;;
  match q with
  | recframe :: rest =>
      modify (set_recframes rest) ;;;
      unlock ;;;
      ret (Some recframe)
  | [] =>
      unlock ;;;
      ret None
  end.

Definition get_recframesize : M nat :=
  lock ;;;
  n <- gets (fun s => length (recframes s)) ;;
  unlock ;;;
  ret n.

Definition is_recording : M bool :=
  lock ;;;
  c <- gets continuous ;;
  match c with
  | Some b => unlock ;;; ret b
  | None => raise AttributeError
  end.

Definition is_saving : M bool :=
  lock ;;;
  sav <- gets saving ;;
  unlock ;;;
  ret sav.

(** ** Capture *)

Definition add_overlay (text : string) (x y : Z) (o : FrameObj) : FrameObj :=
  {| channels := channels o; pix := pix o;
     overlays := overlays o ++ [(text, x, y)] |}.

(** [cv2.putText] draws into the array it is given: every holder of the
    reference sees the text. *)
Definition write_to_frame (frm : ref) (text : string) (x y : Z) : M ref :=
  modify (fun s => set_heap (alter (add_overlay text x y) frm (heap s)) s) ;;;
  ret frm.

(** [int(p/100 * n)] for an integer [n]; the double product is taken to
    truncate to the exact quotient. *)
Definition pct (p n : Z) : Z := Z.quot (p * n) 100.

(** [sig_new_frame.emit()]: one delivery per connected recorder. *)
Definition emit_new_frame : M unit :=
  modify (fun s => logs (map NewFrame (slots s)) s).

Definition grab_frame {P : Platform} (g : Grab) : M unit :=
  cap <- gets capture ;;
  match cap with
  | None => raise AttributeError
  | Some _ =>
      let flag := g_flag g in
      let dtime := g_now g in
      modify (fun s => set_frame_dts (record_dtime dtime (frame_dts s)) s) ;;;
      fr <- gets (fun s => fr_of (frame_dts s)) ;;
      c <- gets color ;;
      frame <- try_except
                 (if c then
                    f <- brg2rgb (g_frame g) ;;
                    modify (set_empty_frame f) ;;;
                    ret f
                  else
                    f <- brg2grayscale (g_frame g) ;;
                    modify (set_empty_frame f) ;;;
                    ret f)
                 (gets empty_frame) ;;
      w <- gets width ;;
      h <- gets height ;;
      write_to_frame frame (strftime "%Y-%m-%d %H:%M:%S" dtime)
        (pct 5 w) (pct 5 h) ;;;
      match g_remote g with
      | Some speed =>
          write_to_frame frame (speed +:+ " m/s") (pct 85 w) (pct 5 h) ;;;
          ret tt
      | None => ret tt
      end ;;;
      if negb flag then
        emit (Warned "Couldn't grab frame from camera!")
      else
        lock ;;;
        modify (set_dispframe (Some (frame, dtime, fr))) ;;;
        unlock ;;;
        sav <- is_saving ;;
        if sav then
          lock ;;;
          modify (fun s =>
                    set_recframes (recframes s ++ [(frame, daynum10 dtime +:+ nl)]) s) ;;;
          unlock ;;;
          emit_new_frame
        else ret tt
  end.


Definition stop_capture : M unit :=
  lock ;;;
  modify (set_continuous (Some false)) ;;;
  unlock.



Definition start_saving : M unit :=
  lock ;;;
  modify (set_saving true) ;;;
  unlock.


(** ** Recording sessions *)

(** [self.recording.get_write_count()]. *)
Definition get_write_count : M Z :=
  r <- gets recording ;;
  match r with
  | Some rc => ret (rec_write_count rc)
  | None => raise AttributeError
  end.

(** [sig_new_frame.connect(self.recording.write)]. *)
Definition connect (rid : nat) : M unit :=
  modify (fun s => set_slots (slots s ++ [rid]) s).

Fixpoint remove_first (rid : nat) (l : list nat) : option (list nat) :=
  match l with
  | [] => None
  | x :: rest =>
      if (x =? rid)%nat then Some rest
      else option_map (cons x) (remove_first rid rest)
  end.

(** [sig_new_frame.disconnect(self.recording.write)]: PyQt raises
    [TypeError] when that slot is not connected. *)
Definition disconnect (rid : nat) : M unit :=
  l <- gets slots ;;
  match remove_first rid l with
  | Some l' => modify (set_slots l')
  | None => raise TypeError
  end.

Definition new_recording (framerate_arg : Q) (o : Opening) : M (option bool) :=
  tr <- gets triggered ;;
  effective <- (if negb tr then
                  try_except
                    (d <- get_dispframe ;;
                     match d with
                     | Some (_, _, fr) => ret fr
                     | None => raise TypeError
                     end)
                    (fps <- gets framerate ;;
                     emit (Printed "FPS was not successfully read out and set") ;;;
                     ret fps)
                else ret framerate_arg) ;;
  res <- get_resolution ;;
  c <- gets color ;;
  modify (set_recording
            (Some {| rec_id := o_id o; rec_opened := o_opened o;
                     rec_fps := effective; rec_resolution := res;
                     rec_color := c; rec_write_count := o_count o |})) ;;;
  if negb (o_opened o) then
    emit (ErrorRaised "Video-recording could not be started.") ;;;
    ret (Some false)
  else
    modify (set_recordingThread (Some (o_id o))) ;;;
    emit (ThreadStarted (o_id o)) ;;;
    connect (o_id o) ;;;
    ret None.

(** The recorder thread at work during a sleep of [stop_saving]. *)
Fixpoint consume (n : nat) : M unit :=
  match n with
  | O => ret tt
  | S k => get_recframe ;;; consume k
  end.

Definition bump (k : nat) (rc : Recorder) : Recorder :=
  {| rec_id := rec_id rc; rec_opened := rec_opened rc; rec_fps := rec_fps rc;
     rec_resolution := rec_resolution rc; rec_color := rec_color rc;
     rec_write_count := rec_write_count rc + Z.of_nat k |}.

Definition written (k : nat) : M unit :=
  modify (fun s => set_recording (option_map (bump k) (recording s)) s).

(** [QThread.msleep(ms)], during which the recorder thread does [t]. *)
Definition msleep (ms : Z) (t : Tick) : M unit :=
  emit (Slept ms) ;;;
  consume (t_pops t) ;;;
  written (t_writes t).

(** How one pass through the [while] of [stop_saving] ends: the test
    fails, the [break] is taken, or the sleep comes next.  Each carries the
    value of [double_counter] at that point. *)
Inductive Polled :=
| LoopExit (double_counter : Z)
| LoopBreak (double_counter : Z)
| LoopSleep (double_counter : Z).

(** The test of the [while] of [stop_saving] and its body up to the sleep.
    [last] and [triggered_frames] are set once before the loop and never
    assigned again; [double_counter] is the loop's only variable. *)
Definition poll (last triggered_frames double_counter : Z) : M Polled :=
  n <- get_recframesize ;;
  if (0 <? n)%nat then
    wc <- get_write_count ;;
    emit (Printed ("Writing: " +:+ str_Z wc +:+ " of " +:+ str_Z triggered_frames)) ;;;
    n' <- get_recframesize ;;
    emit (Printed (str_Z (Z.of_nat n'))) ;;;
    wc' <- get_write_count ;;
    let double_counter :=
      if last =? wc' then double_counter + 1 else double_counter in
    if double_counter =? 10 then
      emit (ErrorRaised "Frames cannot be saved.") ;;;
      ret (LoopBreak double_counter)
    else ret (LoopSleep double_counter)
  else ret (LoopExit double_counter).

(** The whole loop; the result is [double_counter] when it is left. *)
Fixpoint drain (last triggered_frames double_counter : Z) (ticks : list Tick)
  : M Z :=
  p <- poll last triggered_frames double_counter ;;
  match p with
  | LoopExit dc => ret dc
  | LoopBreak dc => ret dc
  | LoopSleep dc =>
      match ticks with
      | [] => fun s => Pending s
      | t :: ticks' =>
          msleep 100 t ;;;
          drain last triggered_frames dc ticks'
      end
  end.

(** [stop_saving], with [now] the time read after the loop and [ticks] what
    the recorder thread does during each sleep. *)
Definition stop_saving {P : Platform} (now : datetime) (ticks : list Tick) : M unit :=
  lock ;;;
  modify (set_saving false) ;;;
  r <- gets recording ;;
  match r with
  | None => raise AttributeError
  | Some rc =>
      disconnect (rec_id rc) ;;;
      unlock ;;;
      last <- get_write_count ;;
      let double_counter := -1 in
      let triggered_frames := 0 in
      _ <- drain last triggered_frames double_counter ticks ;;
      let timestamp := strftime "%Y-%m-%d  %H:%M:%S" now in
      let s := timestamp +:+ " " +:+ tab +:+ " " +:+ "All frames written: " in
      wc <- get_write_count ;;
      let s := s +:+ str_Z wc +:+ " of " +:+ str_Z triggered_frames in
      emit (TimestampSet s) ;;;
      emit (Released (rec_id rc)) ;;;
      emit ThreadStopped ;;;
      modify (set_recording None) ;;;
      modify (set_recordingThread None)
  end.

(** ** Device properties *)

(** [Camera.open], with [dev] the device that [cv2.VideoCapture(device_no)]
    returns, rate, width, height and autofocus set. *)
Definition open (dev : Capture) : M unit :=
  modify (set_capture (Some dev)).


(** ["CAP_PROP" in e]. *)
Definition contains (needle e : string) : bool :=
  match String.index 0 needle e with
  | Some _ => true
  | None => false
  end.

(** [e[n:]]. *)
Fixpoint drop_chars (n : nat) (e : string) : string :=
  match n, e with
  | O, _ => e
  | S _, EmptyString => EmptyString
  | S k, String _ rest => drop_chars k rest
  end.

Definition lower_char (c : Ascii.ascii) : Ascii.ascii :=
  let n := Ascii.nat_of_ascii c in
  if ((65 <=? n) && (n <=? 90))%nat then Ascii.ascii_of_nat (n + 32) else c.

(** [e.lower()], for the ASCII names of a module. *)
Fixpoint lower (e : string) : string :=
  match e with
  | EmptyString => EmptyString
  | String c rest => String (lower_char c) (lower rest)
  end.

(** The key under which [get_properties] files the attribute [e]. *)
Definition prop_key (e : string) : string := lower (drop_chars 12 e).

(** [get_properties], with [names] the list [dir(cv2)] and [get e] the
    value [self.capture.get(getattr(cv2, e))].  The dictionary is built by
    assignment in the order of [names]. *)
Definition get_properties (names : list string) (get : string -> Q)
  : M (option (gmap string Q)) :=
  cap <- gets capture ;;
  match cap with
  | Some _ =>
      let properties := List.filter (contains "CAP_PROP") names in
      ret (Some (fold_left (fun d e => <[prop_key e := get e]> d)
                           properties ∅))
  | None =>
      emit (Warned "Camera needs to be opened first!") ;;;
      ret None
  end.

(** ** Scripts of calls *)

(** Successive calls of [grab_frame]. *)
Fixpoint grab_frames {P : Platform} (gs : list Grab) : M unit :=
  match gs with
  | [] => ret tt
  | g :: rest => grab_frame g ;;; grab_frames rest
  end.

(** A consumer that calls [get_recframe] until it answers [None], at most
    [fuel] times, and collects what it was given. *)
Fixpoint read_queue (fuel : nat) : M (list (ref * string)) :=
  match fuel with
  | O => fun s => Pending s
  | S k =>
      x <- get_recframe ;;
      match x with
      | Some recframe => l <- read_queue k ;; ret (recframe :: l)
      | None => ret []
      end
  end.

(** The state a call ends in, whatever its outcome. *)
Definition state_of {A} (r : Res A) : Camera :=
  match r with
  | Ok _ s | Raise _ s | Blocked s | Pending s => s
  end.

(** ** A concrete platform and device, for running the model *)

Definition demo_platform : Platform :=
  {| strftime := fun fmt t => fmt +:+ "@" +:+ str_Z t;
     daynum10 := fun t => str_Z t |}.

Definition demo_device : Capture :=
  {| cap_width := 640; cap_height := 480; cap_fps := 30; cap_opened := true |}.

Definition demo_cfg (c : bool) : Config :=
  {| video_xy := (640, 480); video_fps := 30 # 1; video_color := c |}.

Definition bgr (i : nat) : option Image :=
  Some {| img_id := i; img_channels := 3 |}.

Definition good (i : nat) (t : datetime) : Grab :=
  {| g_flag := true; g_frame := bgr i; g_now := t; g_remote := None |}.

Definition failed (t : datetime) : Grab :=
  {| g_flag := false; g_frame := None; g_now := t; g_remote := None |}.


(** A recorder thread that does nothing during a sleep. *)
Definition idle : Tick := {| t_pops := 0; t_writes := 0 |}.

(** A recorder thread that writes [k] frames during a sleep. *)
Definition writes (k : nat) : Tick := {| t_pops := k; t_writes := k |}.

Definition opening (rid : nat) (ok : bool) : Opening :=
  {| o_id := rid; o_opened := ok; o_count := 0 |}.

(** A fresh camera in colour mode. *)
Definition fresh : Camera :=
  Eval vm_compute in init (demo_cfg true) demo_device.

(** A session with five frames queued and none written yet. *)
Definition five_queued : Camera :=
  Eval vm_compute in
  state_of
    ((new_recording 0 (opening 1 true) ;;;
      start_saving ;;;
      grab_frames (P := demo_platform)
        [good 1 0; good 2 40000; good 3 80000; good 4 120000; good 5 160000])
       fresh).

(** A grab whose image [cv2.cvtColor] accepts. *)
Definition convertible (g : Grab) : bool :=
  match g_frame g with
  | Some im => ((img_channels im =? 3) || (img_channels im =? 4))%nat
  | None => false
  end.

(** The conversion code that goes with [self.color]. *)
Definition code_of (c : bool) : ColorCode :=
  if c then COLOR_BGR2RGB else COLOR_BGR2GRAY.

(** The number of channels that the configured colour mode asks for. *)
Definition target_channels (c : bool) : nat := if c then 3%nat else 1%nat.

Definition is_pending {A} (r : Res A) : bool :=
  match r with Pending _ => true | _ => false end.

(** The rate as the specification words it: one interval less than there
    are samples, over the elapsed seconds. *)
Definition spec_current_rate (dts : list datetime) : Q :=
  if (length dts <? 2)%nat then 0%Q
  else
    match head dts, last dts with
    | Some first, Some newest =>
        let elapsed := total_seconds (newest - first) in
        if Qlt_le_dec 0 elapsed
        then inject_Z (Z.of_nat (length dts) - 1) / elapsed
        else 0%Q
    | _, _ => 0%Q
    end.

(** The stall counter as the specification words it: compared with the
    previous poll, incremented when unchanged, reset to 0 otherwise. *)
Definition spec_stall_counter (previous wc counter : Z) : Z :=
  if wc =? previous then counter + 1 else 0.

(** The two lines that one pass of the drain loop prints, and the pass
    with its sleep. *)
Definition poll_lines (wc : Z) (depth : nat) : list Event :=
  [Printed ("Writing: " +:+ str_Z wc +:+ " of " +:+ str_Z 0);
   Printed (str_Z (Z.of_nat depth))].

Definition stalled_pass (wc : Z) (depth : nat) : list Event :=
  poll_lines wc depth ++ [Slept 100].

(** The line that [stop_saving] sends through [sig_set_timestamp]. *)
Definition summary {P : Platform} (now : datetime) (wc : Z) : string :=
  (strftime "%Y-%m-%d  %H:%M:%S" now +:+ " " +:+ tab +:+ " " +:+
   "All frames written: ") +:+ str_Z wc +:+ " of " +:+ str_Z 0.

(** The value a call returns, when it returns. *)
Definition value_of {A} (r : Res A) : option A :=
  match r with Ok a _ => Some a | _ => None end.

(** The value of [double_counter] that a pass through the loop ends with. *)
Definition polled_counter (p : Polled) : Z :=
  match p with LoopExit d | LoopBreak d | LoopSleep d => d end.

(** The recorder of the session [five_queued]. *)
Definition session_recorder : Recorder :=
  {| rec_id := 1; rec_opened := true; rec_fps := 30 # 1;
     rec_resolution := (640, 480); rec_color := true; rec_write_count := 0 |}.

(** The session [five_queued] after a sleep in which the recorder thread
    wrote one frame, and after a further sleep in which it wrote none. *)
Definition one_written : Camera :=
  Eval vm_compute in state_of (msleep 100 (writes 1) five_queued).

Definition one_written_then_idle : Camera :=
  Eval vm_compute in state_of (msleep 100 idle one_written).

(** A read that the device reports as good but that [cv2.cvtColor]
    rejects. *)
Definition unconvertible (t : datetime) : Grab :=
  {| g_flag := true; g_frame := None; g_now := t; g_remote := None |}.

(** The texts that one grab draws into its frame, with their positions:
    the time, and the speed when the remote option is on. *)
Definition stamps {P : Platform} (w h : Z) (g : Grab) : list (string * Z * Z) :=
  (strftime "%Y-%m-%d %H:%M:%S" (g_now g), pct 5 w, pct 5 h) ::
  match g_remote g with
  | Some speed => [(speed +:+ " m/s", pct 85 w, pct 5 h)]
  | None => []
  end.

(** An array with further texts drawn into it. *)
Definition drawn (texts : list (string * Z * Z)) (o : FrameObj) : FrameObj :=
  {| channels := channels o; pix := pix o; overlays := overlays o ++ texts |}.


(** * Reasoning about calls *)

Arguments fr_of : simpl never.
Arguments record_dtime : simpl never.
Arguments pct : simpl never.
Arguments String.append : simpl never.
Arguments str_Z : simpl never.

(** ** One step of a method at a time *)

Section Exec.

Lemma bind_Ok {A B} (m : M A) (k : A -> M B) s a s1 :
  m s = Ok a s1 -> bind m k s = k a s1.
Proof. unfold bind. intros ->. reflexivity. Qed.

Lemma bind_Raise {A B} (m : M A) (k : A -> M B) s e s1 :
  m s = Raise e s1 -> bind m k s = Raise e s1.
Proof. unfold bind. intros ->. reflexivity. Qed.

Lemma bind_Blocked {A B} (m : M A) (k : A -> M B) s s1 :
  m s = Blocked s1 -> bind m k s = Blocked s1.
Proof. unfold bind. intros ->. reflexivity. Qed.

Lemma bind_Pending {A B} (m : M A) (k : A -> M B) s s1 :
  m s = Pending s1 -> bind m k s = Pending s1.
Proof. unfold bind. intros ->. reflexivity. Qed.

Lemma try_Ok {A} (m h : M A) s a s1 :
  m s = Ok a s1 -> try_except m h s = Ok a s1.
Proof. unfold try_except. intros ->. reflexivity. Qed.

Lemma try_Raise {A} (m h : M A) s e s1 :
  m s = Raise e s1 -> try_except m h s = h s1.
Proof. unfold try_except. intros ->. reflexivity. Qed.

Lemma gets_val {A} (f : Camera -> A) s v : f s = v -> gets f s = Ok v s.
Proof. intros <-. reflexivity. Qed.

Lemma modify_val f s s' : f s = s' -> modify f s = Ok tt s'.
Proof. intros <-. reflexivity. Qed.

Lemma emit_ok e s : emit e s = Ok tt (log e s).
Proof. reflexivity. Qed.

Lemma ret_ok {A} (a : A) s : ret a s = Ok a s.
Proof. reflexivity. Qed.

Lemma lock_ok s : mutex s = false -> lock s = Ok tt (set_mutex true s).
Proof. unfold lock. intros ->. reflexivity. Qed.

Lemma lock_held s : mutex s = true -> lock s = Blocked s.
Proof. unfold lock. intros ->. reflexivity. Qed.

Lemma unlock_ok s : unlock s = Ok tt (set_mutex false s).
Proof. reflexivity. Qed.

Lemma unlock_lock s : mutex s = false -> set_mutex false (set_mutex true s) = s.
Proof. destruct s; cbn; intros ->; reflexivity. Qed.

Lemma write_to_frame_eq frm text x y s h' :
  alter (add_overlay text x y) frm (heap s) = h' ->
  write_to_frame frm text x y s = Ok frm (set_heap h' s).
Proof. intros <-. reflexivity. Qed.

Lemma emit_new_frame_eq s l :
  slots s = l -> emit_new_frame s = Ok tt (logs (map NewFrame l) s).
Proof. intros <-. reflexivity. Qed.

End Exec.

(** Fields of a state written as setters around another state. *)
Ltac norm :=
  cbn [triggered capture width height framerate color saving continuous
       frame_dts recframes dispframe empty_frame heap recording
       recordingThread slots mutex trace
       set_saving set_continuous set_frame_dts set_recframes set_dispframe
       set_empty_frame set_heap set_recording set_recordingThread set_slots
       set_mutex set_capture logs log].

Ltac fld := norm; first [eassumption | reflexivity].

Ltac conjs := repeat match goal with |- _ /\ _ => apply conj end.

(** Lemmas about whole methods are added to [method] as they are proved. *)
Ltac method := fail.

Ltac prim :=
  lazymatch goal with
  | |- bind _ _ _ = _ => erewrite bind_Ok by prim; cbv beta iota zeta; prim
  | |- ret _ _ = _ => apply ret_ok
  | |- gets _ _ = _ => apply gets_val; fld
  | |- modify _ _ = _ => apply modify_val; cbv beta; fld
  | |- emit _ _ = _ => apply emit_ok
  | |- unlock _ = _ => apply unlock_ok
  | |- lock _ = _ => apply lock_ok; fld
  | |- write_to_frame _ _ _ _ _ = _ => apply write_to_frame_eq; fld
  | |- emit_new_frame _ = _ => apply emit_new_frame_eq; fld
  | |- _ => method
  end.

Ltac step := erewrite bind_Ok by prim; cbv beta iota zeta.
Ltac steps := repeat step.

(** ** The accessors *)

Section Accessors.

Lemma is_saving_val s v :
  mutex s = false -> saving s = v -> is_saving s = Ok v s.
Proof.
  intros Hm Hv. unfold is_saving. steps.
  rewrite ret_ok, unlock_lock; congruence.
Qed.

Lemma is_recording_val s b :
  mutex s = false -> continuous s = Some b -> is_recording s = Ok b s.
Proof.
  intros Hm Hc. unfold is_recording. steps.
  rewrite ret_ok, unlock_lock; congruence.
Qed.

Lemma get_recframesize_val s n :
  mutex s = false -> length (recframes s) = n -> get_recframesize s = Ok n s.
Proof.
  intros Hm Hn. unfold get_recframesize. steps.
  rewrite ret_ok, unlock_lock; congruence.
Qed.

Lemma get_write_count_val s rc :
  recording s = Some rc -> get_write_count s = Ok (rec_write_count rc) s.
Proof. intros Hr. unfold get_write_count. step. reflexivity. Qed.

Lemma get_resolution_val s cap :
  capture s = Some cap ->
  get_resolution s = Ok (cap_width cap, cap_height cap) s.
Proof. intros Hc. unfold get_resolution. step. reflexivity. Qed.

Lemma get_dispframe_val s d :
  mutex s = false -> dispframe s = d ->
  get_dispframe s = Ok d (set_dispframe None s).
Proof.
  intros Hm Hd. unfold get_dispframe. steps.
  rewrite ret_ok, unlock_lock; congruence.
Qed.

Lemma get_dispframe_empty s :
  mutex s = false -> dispframe s = None -> get_dispframe s = Ok None s.
Proof.
  intros Hm Hd. rewrite (get_dispframe_val s None Hm Hd). f_equal.
  destruct s; cbn in *; subst; reflexivity.
Qed.

Lemma get_recframe_nil s :
  mutex s = false -> recframes s = [] -> get_recframe s = Ok None s.
Proof.
  intros Hm Hq. unfold get_recframe. steps.
  rewrite ret_ok, unlock_lock; congruence.
Qed.

Lemma get_recframe_cons s x q :
  mutex s = false -> recframes s = x :: q ->
  get_recframe s = Ok (Some x) (set_recframes q s).
Proof.
  intros Hm Hq. unfold get_recframe. steps.
  rewrite ret_ok. f_equal. destruct s; cbn in *; subst; reflexivity.
Qed.

Lemma stop_capture_eq s :
  mutex s = false -> stop_capture s = Ok tt (set_continuous (Some false) s).
Proof.
  intros Hm. unfold stop_capture. steps. rewrite unlock_ok. f_equal.
  destruct s; cbn in *; subst; reflexivity.
Qed.

Lemma start_saving_eq s :
  mutex s = false -> start_saving s = Ok tt (set_saving true s).
Proof.
  intros Hm. unfold start_saving. steps. rewrite unlock_ok. f_equal.
  destruct s; cbn in *; subst; reflexivity.
Qed.

End Accessors.

Ltac method ::=
  lazymatch goal with
  | |- is_saving _ = _ => apply is_saving_val; fld
  | |- is_recording _ = _ => apply is_recording_val; fld
  | |- get_recframesize _ = _ => apply get_recframesize_val; fld
  | |- get_write_count _ = _ => apply get_write_count_val; fld
  | |- get_resolution _ = _ => apply get_resolution_val; fld
  | |- get_dispframe _ = _ => apply get_dispframe_val; fld
  | |- stop_capture _ = _ => apply stop_capture_eq; fld
  | |- start_saving _ = _ => apply start_saving_eq; fld
  end.

(** ** A grab, path by path *)

Section Grab.
Context {P : Platform}.

Lemma conversion_Some (c : bool) fr o s :
  cvtColor fr (code_of c) = Some o ->
  try_except
    (if c then
       f <- brg2rgb fr ;; modify (set_empty_frame f) ;;; ret f
     else
       f <- brg2grayscale fr ;; modify (set_empty_frame f) ;;; ret f)
    (gets empty_frame) s
  = Ok (length (heap s))
       (set_empty_frame (length (heap s)) (set_heap (heap s ++ [o]) s)).
Proof.
  intros E. apply try_Ok.
  destruct c; unfold brg2rgb, brg2grayscale, cvt; cbn [code_of] in E; rewrite E;
    (erewrite bind_Ok by reflexivity); cbv beta; steps; reflexivity.
Qed.

Lemma conversion_None (c : bool) fr s :
  cvtColor fr (code_of c) = None ->
  try_except
    (if c then
       f <- brg2rgb fr ;; modify (set_empty_frame f) ;;; ret f
     else
       f <- brg2grayscale fr ;; modify (set_empty_frame f) ;;; ret f)
    (gets empty_frame) s
  = Ok (empty_frame s) s.
Proof.
  intros E. erewrite try_Raise; [reflexivity|].
  destruct c; unfold brg2rgb, brg2grayscale, cvt; cbn [code_of] in E; rewrite E;
    apply bind_Raise; reflexivity.
Qed.

Lemma cvtColor_convertible g code :
  convertible g = true -> exists o, cvtColor (g_frame g) code = Some o.
Proof.
  unfold convertible, cvtColor. destruct (g_frame g) as [im|]; [|discriminate].
  destruct ((img_channels im =? 3)%nat || (img_channels im =? 4)%nat);
    [eauto | discriminate].
Qed.

Lemma cvtColor_unconvertible g code :
  convertible g = false -> cvtColor (g_frame g) code = None.
Proof.
  unfold convertible, cvtColor. destruct (g_frame g) as [im|]; [|reflexivity].
  destruct ((img_channels im =? 3)%nat || (img_channels im =? 4)%nat);
    [discriminate | reflexivity].
Qed.


Lemma channels_alter text x y frm (h : list FrameObj) r :
  channels <$> alter (add_overlay text x y) frm h !! r = channels <$> h !! r.
Proof.
  rewrite list_lookup_alter. case_decide; [subst|reflexivity].
  destruct (h !! r); reflexivity.
Qed.

(** The first half of [grab_frame], up to the test of [flag]: the window,
    the conversion or its fallback, and the overlays.  [f] is the frame
    that goes on and [s1] the state at the test. *)
Lemma grab_frame_prefix s g cap :
  capture s = Some cap ->
  exists s1,
    let f := if convertible g then length (heap s) else empty_frame s in
    grab_frame g s =
      (if negb (g_flag g) then
         emit (Warned "Couldn't grab frame from camera!")
       else
         lock ;;;
         modify (set_dispframe
                   (Some (f, g_now g,
                          fr_of (record_dtime (g_now g) (frame_dts s))))) ;;;
         unlock ;;;
         sav <- is_saving ;;
         if sav then
           lock ;;;
           modify (fun s0 =>
                     set_recframes
                       (recframes s0 ++ [(f, daynum10 (g_now g) +:+ nl)]) s0) ;;;
           unlock ;;;
           emit_new_frame
         else ret tt) s1 /\
    frame_dts s1 = record_dtime (g_now g) (frame_dts s) /\
    empty_frame s1 = f /\
    length (heap s1) =
      (if convertible g then S (length (heap s)) else length (heap s)) /\
    (forall o, cvtColor (g_frame g) (code_of (color s)) = Some o ->
               channels <$> heap s1 !! f = Some (channels o)) /\
    recframes s1 = recframes s /\ dispframe s1 = dispframe s /\
    trace s1 = trace s /\ saving s1 = saving s /\ mutex s1 = mutex s /\
    capture s1 = capture s /\ color s1 = color s /\
    continuous s1 = continuous s /\ slots s1 = slots s /\
    recording s1 = recording s /\ recordingThread s1 = recordingThread s /\
    (forall r o, heap s !! r = Some o ->
                 channels <$> heap s1 !! r = Some (channels o)).
Proof.
  intros Hc. unfold grab_frame. step. steps.
  destruct (convertible g) eqn:Ec.
  - destruct (cvtColor_convertible g (code_of (color s)) Ec) as [o Ho].
    erewrite bind_Ok by (apply conversion_Some; exact Ho). cbv beta. norm.
    destruct (g_remote g) as [speed|]; steps;
      (eexists; split; [reflexivity|]); norm;
      rewrite ?length_alter, ?length_app, ?Nat.add_1_r;
      conjs; try reflexivity.
    all: try (intros o' Ho'; rewrite Ho in Ho'; injection Ho' as <-;
              rewrite ?channels_alter, lookup_app_r, Nat.sub_diag by lia;
              reflexivity).
    all: intros r o' Hr; rewrite ?channels_alter, lookup_app_l, Hr
           by (eapply lookup_lt_Some; exact Hr); reflexivity.
  - pose proof (cvtColor_unconvertible g (code_of (color s)) Ec) as Ho.
    erewrite bind_Ok by (apply conversion_None; exact Ho). cbv beta. norm.
    destruct (g_remote g) as [speed|]; steps;
      (eexists; split; [reflexivity|]); norm;
      rewrite ?length_alter;
      conjs; try reflexivity.
    all: try (intros o' Ho'; rewrite Ho in Ho'; discriminate).
    all: intros r o' Hr; rewrite ?channels_alter, Hr; reflexivity.
Qed.

End Grab.

Section GrabOutcomes.
Context {P : Platform}.

(** A grab whose read succeeded, on a free mutex. *)
Lemma grab_frame_read s g cap :
  capture s = Some cap -> mutex s = false -> g_flag g = true ->
  let f := if convertible g then length (heap s) else empty_frame s in
  exists s',
    grab_frame g s = Ok tt s' /\
    dispframe s' =
      Some (f, g_now g, fr_of (record_dtime (g_now g) (frame_dts s))) /\
    recframes s' = recframes s ++
      (if saving s then [(f, daynum10 (g_now g) +:+ nl)] else []) /\
    trace s' = trace s ++ (if saving s then map NewFrame (slots s) else []) /\
    length (heap s') =
      (if convertible g then S (length (heap s)) else length (heap s)) /\
    empty_frame s' = f /\
    (forall o, cvtColor (g_frame g) (code_of (color s)) = Some o ->
               channels <$> heap s' !! f = Some (channels o)) /\
    frame_dts s' = record_dtime (g_now g) (frame_dts s) /\
    saving s' = saving s /\ mutex s' = false /\ capture s' = capture s /\
    color s' = color s /\ continuous s' = continuous s /\ slots s' = slots s /\
    (forall r o, heap s !! r = Some o ->
                 channels <$> heap s' !! r = Some (channels o)).
Proof.
  intros Hc Hm Hf f.
  destruct (grab_frame_prefix s g cap Hc)
    as (s1 & Hg & Hdts & Hef & Hlen & Hch & Hq & _ & Htr & Hsav & Hm1 & Hc1
        & Hcol & Hcont & Hsl & _ & _ & Hkeep).
  cbv zeta in Hg. fold f in Hg, Hef, Hch. rewrite Hg, Hf. cbn [negb]. clear Hg.
  rewrite Hm in Hm1.
  destruct (saving s) eqn:Es; steps;
    (eexists; split; [prim|]); norm;
    rewrite ?app_nil_r; conjs; first [exact Hch | exact Hkeep | congruence].
Qed.

(** A grab whose read failed. *)
Lemma grab_frame_unread s g cap :
  capture s = Some cap -> g_flag g = false ->
  exists s',
    grab_frame g s = Ok tt s' /\
    dispframe s' = dispframe s /\ recframes s' = recframes s /\
    trace s' = trace s ++ [Warned "Couldn't grab frame from camera!"] /\
    frame_dts s' = record_dtime (g_now g) (frame_dts s) /\
    continuous s' = continuous s /\ mutex s' = mutex s /\
    saving s' = saving s /\ capture s' = capture s /\
    recording s' = recording s /\ recordingThread s' = recordingThread s /\
    slots s' = slots s /\ color s' = color s /\
    empty_frame s' = (if convertible g then length (heap s) else empty_frame s) /\
    (forall o, cvtColor (g_frame g) (code_of (color s)) = Some o ->
               channels <$> heap s' !! empty_frame s' = Some (channels o)) /\
    (forall r o, heap s !! r = Some o ->
                 channels <$> heap s' !! r = Some (channels o)).
Proof.
  intros Hc Hf.
  destruct (grab_frame_prefix s g cap Hc)
    as (s1 & Hg & Hdts & Hef & Hlen & Hch & Hq & Hd & Htr & Hsav & Hm1 & Hc1
        & Hcol & Hcont & Hsl & Hr & Hth & Hkeep).
  cbv zeta in Hg, Hef, Hch. rewrite <- Hef in Hch. rewrite Hg, Hf. cbn [negb].
  eexists; split; [apply emit_ok|]. norm.
  conjs; first [exact Hch | exact Hkeep | exact Hef | congruence].
Qed.


(** While nothing is being saved a grab leaves the queue alone. *)
Lemma grab_frame_idle s g :
  saving s = false -> recframes (state_of (grab_frame g s)) = recframes s.
Proof.
  intros Hs. destruct (capture s) as [cap|] eqn:Hc.
  - destruct (g_flag g) eqn:Hf.
    + destruct (mutex s) eqn:Hm.
      * destruct (grab_frame_prefix s g cap Hc) as (s1 & Hg & _ & _ & _ & _ & Hq & _ & _ & _ & Hm1 & _).
        cbv zeta in Hg. rewrite Hg, Hf. cbn [negb].
        erewrite bind_Blocked by (apply lock_held; congruence). exact Hq.
      * destruct (grab_frame_read s g cap Hc Hm Hf) as (s' & -> & _ & Hq & _).
        cbn [state_of]. rewrite Hq, Hs. apply app_nil_r.
    + destruct (grab_frame_unread s g cap Hc Hf) as (s' & -> & H).
      cbn [state_of]. apply H.
  - unfold grab_frame. step. reflexivity.
Qed.

End GrabOutcomes.

(** ** The window *)

Section Window.





End Window.

Section Blocked.
Context {P : Platform}.

(** A grab that finds the mutex held never returns: it waits at the first
    [lock], with the window and the fallback already updated. *)
Lemma grab_frame_blocked s g cap :
  capture s = Some cap -> mutex s = true -> g_flag g = true ->
  exists s1, grab_frame g s = Blocked s1.
Proof.
  intros Hc Hm Hf.
  destruct (grab_frame_prefix s g cap Hc)
    as (s1 & Hg & _ & _ & _ & _ & _ & _ & _ & _ & Hm1 & _).
  cbv zeta in Hg. rewrite Hg, Hf. cbn [negb].
  exists s1. apply bind_Blocked, lock_held. congruence.
Qed.

End Blocked.

(** ** The fallback frame *)

Section Fallback.
Context {P : Platform}.

(** What [__init__] leaves in [empty_frame] has the channels of the mode
    that is not configured. *)
Lemma initial_fallback_mode cfg dev :
  channels <$> heap (init cfg dev) !! empty_frame (init cfg dev)
  = Some (target_channels (negb (video_color cfg))).
Proof. destruct cfg as [xy fps c]; destruct c; reflexivity. Qed.



End Fallback.

(** ** The rate *)

Section Rate.

Lemma fr_of_few (dts : list datetime) : (length dts < 2)%nat -> fr_of dts = 0%Q.
Proof.
  intros Hl. unfold fr_of.
  destruct (Nat.ltb_spec 1 (length dts)); [lia | reflexivity].
Qed.

(** With two samples or more the code reports the number of samples over
    the elapsed seconds, and 0 when no time has elapsed. *)
Lemma fr_of_elapsed (dts : list datetime) (first newest : datetime) :
  (2 <= length dts)%nat -> head dts = Some first -> last dts = Some newest ->
  (first < newest ->
   fr_of dts = (inject_Z (Z.of_nat (length dts))
                / total_seconds (newest - first))%Q) /\
  (newest <= first -> fr_of dts = 0%Q).
Proof.
  intros Hl Hh Ht. unfold fr_of. rewrite Hh, Ht.
  destruct (Nat.ltb_spec 1 (length dts)); [|lia].
  destruct (Qlt_le_dec 0 (total_seconds (newest - first))) as [Hpos|Hneg];
    unfold total_seconds, Qlt, Qle in *; cbn in *; split; intros; first [reflexivity | lia].
Qed.

(** The rate of the code is the rate of the specification plus one frame
    per elapsed time. *)
Lemma fr_of_one_too_many (dts : list datetime) (first newest : datetime) :
  (2 <= length dts)%nat -> head dts = Some first -> last dts = Some newest ->
  first < newest ->
  (fr_of dts == spec_current_rate dts + 1 / total_seconds (newest - first))%Q.
Proof.
  intros Hl Hh Ht Hlt.
  rewrite (proj1 (fr_of_elapsed dts first newest Hl Hh Ht) Hlt).
  unfold spec_current_rate. rewrite Hh, Ht.
  destruct (Nat.ltb_spec (length dts) 2); [lia|].
  destruct (Qlt_le_dec 0 (total_seconds (newest - first))) as [Hpos|Hneg].
  - unfold Z.sub. rewrite inject_Z_plus. cbn [inject_Z Z.opp].
    change (inject_Z (- (1))) with (- (1))%Q. unfold Qdiv. ring.
  - unfold total_seconds, Qle in Hneg. cbn in Hneg. lia.
Qed.

End Rate.

(** ** The queue *)

Section Queue.
Context {P : Platform}.

Lemma set_recframes_same s : set_recframes (recframes s) s = s.
Proof. destruct s; reflexivity. Qed.

Lemma read_queue_all q : forall s fuel,
  mutex s = false -> recframes s = q -> (length q < fuel)%nat ->
  read_queue fuel s = Ok q (set_recframes [] s).
Proof.
  induction q as [|x q IH]; intros s fuel Hm Hq Hfuel.
  - destruct fuel as [|fuel]; [cbn in Hfuel; lia|]. cbn [read_queue].
    erewrite bind_Ok by (apply get_recframe_nil; assumption). cbv beta iota.
    rewrite ret_ok, <- Hq, set_recframes_same. reflexivity.
  - destruct fuel as [|fuel]; [cbn in Hfuel; lia|]. cbn [read_queue].
    erewrite bind_Ok by (apply get_recframe_cons; eassumption). cbv beta iota.
    erewrite bind_Ok by (apply IH; [exact Hm | reflexivity | cbn in Hfuel; lia]).
    reflexivity.
Qed.

Lemma grab_frames_enqueue gs : forall s cap,
  capture s = Some cap -> mutex s = false -> saving s = true ->
  Forall (fun g => g_flag g = true /\ convertible g = true) gs ->
  exists s',
    grab_frames gs s = Ok tt s' /\
    recframes s' = recframes s ++
      combine (seq (length (heap s)) (length gs))
              (map (fun g => daynum10 (g_now g) +:+ nl) gs) /\
    mutex s' = false /\ saving s' = true.
Proof.
  induction gs as [|g gs IH]; intros s cap Hc Hm Hs Hall.
  - exists s. cbn. rewrite app_nil_r. auto.
  - inversion Hall as [|? ? [Hf Hv] Hall']; subst.
    destruct (grab_frame_read s g cap Hc Hm Hf)
      as (s1 & Hg & _ & Hq & _ & Hlen & _ & _ & _ & Hs1 & Hm1 & Hc1 & _).
    rewrite Hv in Hq, Hlen. rewrite Hs in Hq, Hs1.
    destruct (IH s1 cap) as (s' & Hgs & Hq' & Hm' & Hs');
      [congruence | assumption | assumption | assumption |].
    exists s'. cbn [grab_frames].
    erewrite bind_Ok by exact Hg. split; [exact Hgs|].
    rewrite Hq', Hq, Hlen, <- app_assoc. cbn. auto.
Qed.

End Queue.

(** ** The drain loop *)

Section Drain.
Context {P : Platform}.

Lemma drain_eq last tf dc ticks :
  drain last tf dc ticks =
  (p <- poll last tf dc ;;
   match p with
   | LoopExit d => ret d
   | LoopBreak d => ret d
   | LoopSleep d =>
       match ticks with
       | [] => fun s => Pending s
       | t :: ticks' => msleep 100 t ;;; drain last tf d ticks'
       end
   end).
Proof. destruct ticks; reflexivity. Qed.

Lemma poll_empty last tf dc s :
  mutex s = false -> recframes s = [] ->
  poll last tf dc s = Ok (LoopExit dc) s.
Proof.
  intros Hm Hq. unfold poll.
  erewrite bind_Ok by (apply get_recframesize_val; [assumption | reflexivity]).
  rewrite Hq. reflexivity.
Qed.

(** One pass over a queue that is not empty. *)
Lemma poll_busy last dc s rc :
  mutex s = false -> recording s = Some rc -> recframes s <> [] ->
  let d := if last =? rec_write_count rc then dc + 1 else dc in
  exists s1,
    poll last 0 dc s
      = Ok (if d =? 10 then LoopBreak d else LoopSleep d) s1 /\
    trace s1 = trace s
      ++ poll_lines (rec_write_count rc) (length (recframes s))
      ++ (if d =? 10 then [ErrorRaised "Frames cannot be saved."] else []) /\
    recframes s1 = recframes s /\ recording s1 = recording s /\
    mutex s1 = false /\ saving s1 = saving s /\ slots s1 = slots s /\
    recordingThread s1 = recordingThread s.
Proof.
  intros Hm Hr Hq d. unfold poll.
  assert (Hlen : (0 <? length (recframes s))%nat = true).
  { destruct (recframes s); [congruence | reflexivity]. }
  step. rewrite Hlen. steps. fold d.
  destruct (d =? 10); steps;
    (eexists; split; [prim|]); norm; unfold poll_lines;
    rewrite <- ?app_assoc; cbn [app]; conjs; first [reflexivity | assumption].
Qed.

Lemma consume_eq n : forall s,
  mutex s = false ->
  consume n s = Ok tt (set_recframes (drop n (recframes s)) s).
Proof.
  induction n as [|n IH]; intros s Hm.
  - cbn [consume]. rewrite ret_ok, drop_0. f_equal.
    destruct s; reflexivity.
  - cbn [consume]. destruct (recframes s) as [|x q] eqn:Eq.
    + erewrite bind_Ok by (apply get_recframe_nil; assumption).
      rewrite IH by assumption. rewrite Eq, !drop_nil. reflexivity.
    + erewrite bind_Ok by (apply get_recframe_cons; eassumption).
      rewrite IH by assumption. reflexivity.
Qed.

(** A sleep, during which the recorder thread does [t]. *)
Lemma msleep_eq t s rc :
  mutex s = false -> recording s = Some rc ->
  exists s2,
    msleep 100 t s = Ok tt s2 /\
    trace s2 = trace s ++ [Slept 100] /\
    recframes s2 = drop (t_pops t) (recframes s) /\
    recording s2 = Some (bump (t_writes t) rc) /\
    mutex s2 = false /\ saving s2 = saving s /\ slots s2 = slots s /\
    recordingThread s2 = recordingThread s.
Proof.
  intros Hm Hr. unfold msleep. step.
  erewrite bind_Ok by (apply consume_eq; norm; assumption). unfold written.
  eexists; split; [prim|]. norm. rewrite Hr.
  conjs; first [reflexivity | assumption].
Qed.

(** A recorder that never writes and a queue that never shrinks: the loop
    sleeps [k] more times when [double_counter] is [9 - k], and breaks at
    the pass after the last of them. *)
Lemma drain_stalled last (k : nat) : forall n dc s rc,
  mutex s = false -> recording s = Some rc -> rec_write_count rc = last ->
  recframes s <> [] -> dc = 9 - Z.of_nat k ->
  ((n < k)%nat -> is_pending (drain last 0 dc (repeat idle n) s) = true) /\
  ((k <= n)%nat ->
   exists s' rc',
     drain last 0 dc (repeat idle n) s = Ok 10 s' /\
     trace s' = trace s
       ++ concat (repeat (stalled_pass last (length (recframes s))) k)
       ++ poll_lines last (length (recframes s))
       ++ [ErrorRaised "Frames cannot be saved."] /\
     recording s' = Some rc' /\ rec_write_count rc' = last /\
     rec_id rc' = rec_id rc /\ recframes s' = recframes s /\
     mutex s' = false /\ saving s' = saving s /\ slots s' = slots s /\
     recordingThread s' = recordingThread s).
Proof.
  induction k as [|k IH]; intros n dc s rc Hm Hr Hw Hq Hdc.
  - destruct (poll_busy last dc s rc Hm Hr Hq)
      as (s1 & Hp & Ht & Hq1 & Hr1 & Hm1 & Hs1 & Hsl1 & Hth1).
    cbv zeta in Hp, Ht. rewrite Hw, Z.eqb_refl in Hp, Ht.
    replace (dc + 1) with 10 in Hp, Ht by lia. cbn [Z.eqb Pos.eqb] in Hp, Ht.
    split; [lia|]. intros _. exists s1, rc.
    rewrite drain_eq. erewrite bind_Ok by exact Hp.
    cbn [repeat concat app].
    conjs; try first [reflexivity | assumption | congruence].
  - destruct (poll_busy last dc s rc Hm Hr Hq)
      as (s1 & Hp & Ht & Hq1 & Hr1 & Hm1 & Hs1 & Hsl1 & Hth1).
    cbv zeta in Hp, Ht. rewrite Hw, Z.eqb_refl in Hp, Ht.
    destruct (Z.eqb_spec (dc + 1) 10) as [E|_]; [lia|].
    rewrite app_nil_r in Ht.
    rewrite drain_eq. erewrite bind_Ok by exact Hp.
    destruct n as [|n].
    + split; [reflexivity | lia].
    + cbn [repeat].
      destruct (msleep_eq idle s1 rc Hm1) as
        (s2 & Hsl & Ht2 & Hq2 & Hr2 & Hm2 & Hs2 & Hsl2 & Hth2);
        [congruence|].
      erewrite bind_Ok by exact Hsl. cbn [t_pops idle] in Hq2.
      rewrite drop_0 in Hq2.
      destruct (IH n (dc + 1) s2 (bump 0 rc)) as [Hlt Hge];
        [assumption | assumption | cbn; lia | congruence | lia |].
      split.
      * intros Hn. apply Hlt. lia.
      * intros Hn. destruct Hge as (s' & rc' & Hd & Ht' & Hr' & Hw' & Hid & Hq' & Hm' & Hs' & Hsl' & Hth'); [lia|].
        exists s', rc'. conjs; try first [assumption | congruence].
        rewrite Ht', Ht2, Ht, Hq2, Hq1. cbn [repeat concat].
        unfold stalled_pass. rewrite <- !app_assoc. reflexivity.
Qed.

End Drain.

Section StopSaving.
Context {P : Platform}.

Lemma disconnect_eq rid s l' :
  remove_first rid (slots s) = Some l' ->
  disconnect rid s = Ok tt (set_slots l' s).
Proof. intros H. unfold disconnect. step. rewrite H. reflexivity. Qed.

Lemma is_pending_bind {A B} (m : M A) (k : A -> M B) s :
  is_pending (m s) = true -> is_pending (bind m k s) = true.
Proof. unfold bind. destruct (m s); cbn; congruence. Qed.

(** [stop_saving] up to its loop. *)
Lemma stop_saving_prefix now ticks s rc l' :
  mutex s = false -> recording s = Some rc ->
  remove_first (rec_id rc) (slots s) = Some l' ->
  stop_saving now ticks s =
    (_ <- drain (rec_write_count rc) 0 (-1) ticks ;;
     wc <- get_write_count ;;
     emit (TimestampSet (summary now wc)) ;;;
     emit (Released (rec_id rc)) ;;;
     emit ThreadStopped ;;;
     modify (set_recording None) ;;;
     modify (set_recordingThread None))
      (set_slots l' (set_saving false s)).
Proof.
  intros Hm Hr Hcon. unfold stop_saving. steps.
  erewrite bind_Ok by (apply disconnect_eq; norm; exact Hcon). cbv beta.
  steps.
  assert (E : set_mutex false (set_slots l' (set_saving false (set_mutex true s)))
              = set_slots l' (set_saving false s))
    by (destruct s; cbn in *; subst; reflexivity).
  rewrite E. reflexivity.
Qed.

(** A recorder that never writes: ten sleeps, then the break. *)
Lemma stop_saving_stalled now s rc l' n :
  mutex s = false -> recording s = Some rc ->
  remove_first (rec_id rc) (slots s) = Some l' -> recframes s <> [] ->
  ((n < 10)%nat -> is_pending (stop_saving now (repeat idle n) s) = true) /\
  ((10 <= n)%nat ->
   exists s',
     stop_saving now (repeat idle n) s = Ok tt s' /\
     trace s' = trace s
       ++ concat (repeat (stalled_pass (rec_write_count rc)
                            (length (recframes s))) 10)
       ++ poll_lines (rec_write_count rc) (length (recframes s))
       ++ [ErrorRaised "Frames cannot be saved.";
           TimestampSet (summary now (rec_write_count rc));
           Released (rec_id rc); ThreadStopped] /\
     recording s' = None /\ recordingThread s' = None /\
     saving s' = false /\ mutex s' = false /\ recframes s' = recframes s).
Proof.
  intros Hm Hr Hcon Hq.
  rewrite (stop_saving_prefix now _ s rc l' Hm Hr Hcon).
  destruct (drain_stalled (rec_write_count rc) 10 n (-1)
              (set_slots l' (set_saving false s)) rc)
    as [Hlt Hge]; try first [assumption | reflexivity].
  split.
  - intros Hn. apply is_pending_bind, Hlt, Hn.
  - intros Hn.
    destruct (Hge Hn)
      as (s1 & rc1 & Hd & Ht & Hr1 & Hw1 & Hid & Hq1 & Hm1 & Hs1 & _).
    erewrite bind_Ok by exact Hd. cbv beta. steps. rewrite Hw1.
    eexists; split; [prim|]. norm. rewrite Ht. norm.
    rewrite <- !app_assoc. cbn [app].
    conjs; first [reflexivity | assumption].
Qed.

End StopSaving.

(** * The claims *)

(** C1: with two samples one second apart the code reports a rate of 2,
    the number of samples over the elapsed time, where the claim has 1,
    the number of intervals over the elapsed time. *)
Theorem rate_of_two_samples_one_second_apart :
  frame_dts (state_of (grab_frames (P := demo_platform)
                         [good 1 0; good 2 1000000] fresh))
    = [0; 1000000] /\
  match dispframe (state_of (grab_frames (P := demo_platform)
                               [good 1 0; good 2 1000000] fresh)) with
  | Some (_, _, fr) => (fr == 2 /\ ~ fr == 1)%Q
  | None => False
  end /\
  Qeq (fr_of [0; 1000000]) 2%Q /\
  Qeq (spec_current_rate [0; 1000000]) 1%Q.
Proof. vm_compute. conjs; first [reflexivity | discriminate]. Qed.

(** C2, as the code has it: [double_counter] starts at -1 and is never
    reset; a pass through the loop adds one to it only if the write count
    is what it was at the previous pass, and leaves it alone when the count
    has grown.  If the recorder thread never writes, the loop is left with
    the error 'Frames cannot be saved.' at its eleventh pass, after exactly
    ten sleeps of 100 ms, and the recorder is released all the same. *)
Theorem stall_counter_of_drain {P : Platform} s rc last dc t now l' :
  mutex s = false -> recording s = Some rc -> last <= rec_write_count rc ->
  (exists s2 rc2 p s3,
     msleep 100 t s = Ok tt s2 /\ recording s2 = Some rc2 /\
     poll last 0 dc s2 = Ok p s3 /\
     dc <= polled_counter p <= dc + 1 /\
     (polled_counter p = dc + 1 -> rec_write_count rc2 = rec_write_count rc) /\
     (rec_write_count rc < rec_write_count rc2 -> polled_counter p = dc)) /\
  (recframes s <> [] -> remove_first (rec_id rc) (slots s) = Some l' ->
   (forall n, (n < 10)%nat ->
      is_pending (stop_saving now (repeat idle n) s) = true) /\
   (forall n, (10 <= n)%nat ->
      exists s',
        stop_saving now (repeat idle n) s = Ok tt s' /\
        trace s' = trace s
          ++ concat (repeat (stalled_pass (rec_write_count rc)
                               (length (recframes s))) 10)
          ++ poll_lines (rec_write_count rc) (length (recframes s))
          ++ [ErrorRaised "Frames cannot be saved.";
              TimestampSet (summary now (rec_write_count rc));
              Released (rec_id rc); ThreadStopped] /\
        recording s' = None /\ recordingThread s' = None)).
Proof.
  intros Hm Hr Hlast. split.
  - destruct (msleep_eq t s rc Hm Hr)
      as (s2 & Hsl & _ & _ & Hr2 & Hm2 & _).
    exists s2, (bump (t_writes t) rc).
    destruct (recframes s2) as [|x q] eqn:Eq.
    + exists (LoopExit dc), s2.
      conjs; try first [assumption | apply poll_empty; assumption];
        cbn [polled_counter bump rec_write_count]; lia.
    + destruct (poll_busy last dc s2 (bump (t_writes t) rc) Hm2 Hr2)
        as (s3 & Hp & _); [congruence|].
      cbv zeta in Hp. eexists _, s3.
      conjs; try first [assumption | exact Hp];
        cbn [bump rec_write_count] in *;
        destruct (Z.eqb_spec last (rec_write_count rc + Z.of_nat (t_writes t)));
        destruct (_ =? 10); cbn [polled_counter]; lia.
  - intros Hq Hcon. split; intros n Hn.
    + apply (stop_saving_stalled now s rc l' n Hm Hr Hcon Hq), Hn.
    + destruct (proj2 (stop_saving_stalled now s rc l' n Hm Hr Hcon Hq) Hn)
        as (s' & Hs & Ht & Hrec & Hth & _).
      exists s'. auto.
Qed.

Lemma stall_counter_of_drain_witness :
  (mutex five_queued = false /\
   recording five_queued = Some session_recorder /\
   0 <= rec_write_count session_recorder) /\
  (forall n, (n < 10)%nat ->
     is_pending (stop_saving (P := demo_platform) 0 (repeat idle n) five_queued)
     = true) /\
  exists s',
    stop_saving (P := demo_platform) 0 (repeat idle 10) five_queued = Ok tt s' /\
    recording s' = None.
Proof.
  assert (Hw : 0 <= rec_write_count session_recorder) by (cbn; lia).
  split; [conjs; [reflexivity | reflexivity | exact Hw]|].
  destruct (stall_counter_of_drain (P := demo_platform) five_queued
              session_recorder 0 (-1) idle 0 [] eq_refl eq_refl Hw) as [_ H].
  destruct H as [Hlt Hge]; [vm_compute; discriminate | reflexivity |].
  split; [exact Hlt|].
  destruct (Hge 10%nat ltac:(lia)) as (s' & Hs & _ & Hr & _).
  exists s'. split; assumption.
Defined.

(** C2, as the claim has it, fails on three counts.  Ten passes in a row
    that see no progress do not end the loop: it sleeps a tenth time.  Once
    the recorder has written a single frame, a pass that finds the count
    unchanged since the previous pass adds nothing to the counter, and no
    number of such passes ends the loop.  And a pass that finds the count
    grown does not put the counter back to 0. *)
Lemma stall_counter_counterexample :
  (is_pending (stop_saving (P := demo_platform) 0 (repeat idle 9) five_queued)
   = true /\
   trace (state_of (stop_saving (P := demo_platform) 0 (repeat idle 9)
                      five_queued))
   = trace five_queued ++ concat (repeat (stalled_pass 0 5) 9)
     ++ poll_lines 0 5) /\
  (is_pending (stop_saving (P := demo_platform) 0
                 (writes 1 :: repeat idle 40) five_queued) = true) /\
  (rec_write_count <$> recording one_written = Some 1 /\
   rec_write_count <$> recording one_written_then_idle = Some 1 /\
   polled_counter <$> value_of (poll 0 0 3 one_written_then_idle) = Some 3 /\
   spec_stall_counter 1 1 3 = 4) /\
  (rec_write_count <$> recording five_queued = Some 0 /\
   polled_counter <$> value_of (poll 0 0 3 one_written) = Some 3 /\
   spec_stall_counter 0 1 3 = 0).
Proof. vm_compute. conjs; reflexivity. Qed.

(** C3, as the code has it: when the recorder cannot be opened, the error
    is sent through [sig_raise_error], the call returns [False], no thread
    is started, nothing is connected to [sig_new_frame], and the saving
    flag and the queue are as before, so that a camera that was not saving
    accepts no frame into the queue. *)
Theorem recorder_open_failure {P : Platform} s rate o cap :
  capture s = Some cap -> mutex s = false -> o_opened o = false ->
  exists s',
    new_recording rate o s = Ok (Some false) s' /\
    trace s' = trace s ++
      (if triggered s then []
       else match dispframe s with
            | Some _ => []
            | None => [Printed "FPS was not successfully read out and set"]
            end) ++
      [ErrorRaised "Video-recording could not be started."] /\
    saving s' = saving s /\ recframes s' = recframes s /\
    recordingThread s' = recordingThread s /\ slots s' = slots s /\
    continuous s' = continuous s /\ mutex s' = false /\
    (exists rc, recording s' = Some rc /\ rec_opened rc = false) /\
    (saving s = false ->
     forall g, recframes (state_of (grab_frame g s')) = recframes s).
Proof.
  intros Hc Hm Ho. unfold new_recording. step.
  destruct (triggered s) eqn:Ht; cbn [negb].
  - steps. rewrite Ho. cbn [negb]. step.
    eexists; split; [reflexivity|]. norm.
    conjs; try first [reflexivity | assumption | (eexists; split; reflexivity)].
    intros Hs g. rewrite grab_frame_idle by (norm; exact Hs). reflexivity.
  - destruct (dispframe s) as [[[f t] fr]|] eqn:Hd.
    + erewrite bind_Ok by (apply try_Ok; prim). cbv beta.
      steps. rewrite Ho. cbn [negb]. step.
      eexists; split; [reflexivity|]. norm.
      conjs; try first [reflexivity | assumption | (eexists; split; reflexivity)].
      intros Hs g. rewrite grab_frame_idle by (norm; exact Hs). reflexivity.
    + erewrite bind_Ok
        by (erewrite try_Raise
              by (erewrite bind_Ok by prim; cbv beta iota; reflexivity);
            prim).
      cbv beta. steps. rewrite Ho. cbn [negb]. step.
      eexists; split; [reflexivity|]. norm. rewrite <- app_assoc.
      conjs; try first [reflexivity | assumption | (eexists; split; reflexivity)].
      intros Hs g. rewrite grab_frame_idle by (norm; exact Hs). reflexivity.
Qed.

Lemma recorder_open_failure_witness :
  (capture fresh = Some demo_device /\ mutex fresh = false /\
   o_opened (opening 1 false) = false) /\
  exists s',
    new_recording 0 (opening 1 false) fresh = Ok (Some false) s' /\
    trace s' = trace fresh ++
      (if triggered fresh then []
       else match dispframe fresh with
            | Some _ => []
            | None => [Printed "FPS was not successfully read out and set"]
            end) ++
      [ErrorRaised "Video-recording could not be started."] /\
    saving s' = saving fresh /\ recframes s' = recframes fresh /\
    recordingThread s' = recordingThread fresh /\ slots s' = slots fresh /\
    continuous s' = continuous fresh /\ mutex s' = false /\
    (exists rc, recording s' = Some rc /\ rec_opened rc = false) /\
    (saving fresh = false ->
     forall g, recframes (state_of (grab_frame (P := demo_platform) g s'))
               = recframes fresh).
Proof.
  split; [conjs; reflexivity|].
  apply (recorder_open_failure (P := demo_platform) fresh 0 (opening 1 false)
           demo_device); reflexivity.
Defined.

(** C3, as the claim has it, fails: after a failed open the recorder object
    is still held in [self.recording]. *)
Lemma failed_open_keeps_recorder :
  exists s' rc,
    new_recording 0 (opening 1 false) fresh = Ok (Some false) s' /\
    recording fresh = None /\
    recording s' = Some rc /\ rec_opened rc = false.
Proof. do 2 eexists. vm_compute. conjs; reflexivity. Qed.




(** C5: five frames queued, all five written during the drain, and the
    summary that [stop_saving] sends reads '5 of 0': the count of expected
    frames is the constant 0. *)
Theorem summary_of_five_written_frames :
  length (recframes five_queued) = 5%nat /\
  exists s',
    stop_saving (P := demo_platform) 200000 [writes 5] five_queued = Ok tt s' /\
    recframes s' = [] /\
    trace s' = trace five_queued ++
      [Printed "Writing: 0 of 0"; Printed "5"; Slept 100;
       TimestampSet ("%Y-%m-%d  %H:%M:%S@200000 " +:+ tab +:+
                     " All frames written: 5 of 0");
       Released 1; ThreadStopped].
Proof. split; [reflexivity|]. eexists. vm_compute. conjs; reflexivity. Qed.

(** C6: in colour mode the frame substituted before any conversion has
    succeeded is the two-dimensional array that [__init__] left in
    [empty_frame], not a three-channel one; in grayscale mode it is the
    three-channel array. *)
Theorem first_fallback_frame_has_wrong_mode :
  (color (init (demo_cfg true) demo_device) = true /\
   exists s',
     grab_frame (P := demo_platform) (failed 0) (init (demo_cfg true) demo_device)
       = Ok tt s' /\
     heap s' !! empty_frame s' =
       Some {| channels := 1; pix := Zeros;
               overlays := [("%Y-%m-%d %H:%M:%S@0", 32, 24)] |} /\
     target_channels true = 3%nat) /\
  (exists s' f t fr,
     grab_frame (P := demo_platform) (unconvertible 0)
       (init (demo_cfg true) demo_device) = Ok tt s' /\
     dispframe s' = Some (f, t, fr) /\
     channels <$> heap s' !! f = Some 1%nat) /\
  (exists s' f t fr,
     grab_frame (P := demo_platform) (unconvertible 0)
       (init (demo_cfg false) demo_device) = Ok tt s' /\
     dispframe s' = Some (f, t, fr) /\
     channels <$> heap s' !! f = Some 3%nat /\
     target_channels false = 1%nat).
Proof.
  conjs; try reflexivity;
    repeat eexists; vm_compute; conjs; reflexivity.
Qed.



(** C8: frames captured while saving leave the record queue through
    [get_recframe] exactly as they went in: the N pairs of frame and
    formatted timestamp, in submission order, each frame a new array; and
    [get_recframe] on an empty queue answers [None] and changes nothing. *)
Theorem record_queue_fifo {P : Platform} s gs cap :
  capture s = Some cap -> mutex s = false -> saving s = true ->
  recframes s = [] ->
  Forall (fun g => g_flag g = true /\ convertible g = true) gs ->
  exists s',
    grab_frames gs s = Ok tt s' /\
    recframes s' =
      combine (seq (length (heap s)) (length gs))
              (map (fun g => daynum10 (g_now g) +:+ nl) gs) /\
    length (recframes s') = length gs /\
    (forall fuel, (length gs < fuel)%nat ->
       read_queue fuel s' = Ok (recframes s') (set_recframes [] s')) /\
    get_recframe (set_recframes [] s') = Ok None (set_recframes [] s').
Proof.
  intros Hc Hm Hs Hq Hall.
  destruct (grab_frames_enqueue gs s cap Hc Hm Hs Hall)
    as (s' & Hg & Hq' & Hm' & Hs').
  rewrite Hq in Hq'. cbn [app] in Hq'.
  assert (Hlen : length (recframes s') = length gs).
  { rewrite Hq', length_combine, length_seq, length_map. lia. }
  exists s'. conjs; try assumption.
  - intros fuel Hfuel. apply read_queue_all; [assumption | reflexivity | lia].
  - apply get_recframe_nil; [exact Hm' | reflexivity].
Qed.

Lemma record_queue_fifo_witness :
  (capture (set_saving true fresh) = Some demo_device /\
   mutex (set_saving true fresh) = false /\
   saving (set_saving true fresh) = true /\
   recframes (set_saving true fresh) = [] /\
   Forall (fun g => g_flag g = true /\ convertible g = true)
          [good 7 0; good 8 40000; good 9 80000]) /\
  exists s',
    grab_frames (P := demo_platform) [good 7 0; good 8 40000; good 9 80000]
      (set_saving true fresh) = Ok tt s' /\
    recframes s' = [(1%nat, "0" +:+ nl); (2%nat, "40000" +:+ nl);
                    (3%nat, "80000" +:+ nl)] /\
    read_queue 4 s' = Ok (recframes s') (set_recframes [] s').
Proof.
  assert (Hall : Forall (fun g => g_flag g = true /\ convertible g = true)
                        [good 7 0; good 8 40000; good 9 80000]).
  { repeat constructor. }
  split; [conjs; try reflexivity; exact Hall|].
  destruct (record_queue_fifo (P := demo_platform) (set_saving true fresh)
              [good 7 0; good 8 40000; good 9 80000] demo_device
              eq_refl eq_refl eq_refl eq_refl Hall)
    as (s' & Hg & Hq & _ & Hread & _).
  exists s'. conjs; [exact Hg | exact Hq | apply Hread; cbn; lia].
Defined.

(** C9: a take of the display slot returns what the slot holds and leaves
    it empty, so that a second take with no publish in between finds
    nothing; what it holds after a grab is the frame, time and rate of that
    grab alone, whatever was there before.  The slot is an [option]: it
    never holds more than one value. *)
Theorem display_slot_take {P : Platform} s g cap :
  capture s = Some cap -> mutex s = false -> g_flag g = true ->
  (exists s0,
     get_dispframe s = Ok (dispframe s) s0 /\ dispframe s0 = None /\
     get_dispframe s0 = Ok None s0) /\
  (exists s1 f,
     grab_frame g s = Ok tt s1 /\
     dispframe s1 = Some (f, g_now g, fr_of (frame_dts s1)) /\
     exists s2,
       get_dispframe s1 = Ok (Some (f, g_now g, fr_of (frame_dts s1))) s2 /\
       dispframe s2 = None /\
       get_dispframe s2 = Ok None s2).
Proof.
  intros Hc Hm Hf. split.
  - exists (set_dispframe None s). conjs.
    + apply get_dispframe_val; [assumption | reflexivity].
    + reflexivity.
    + apply get_dispframe_empty; [assumption | reflexivity].
  - destruct (grab_frame_read s g cap Hc Hm Hf)
      as (s1 & Hg & Hd & _ & _ & _ & _ & _ & Hdts & _ & Hm1 & _).
    rewrite <- Hdts in Hd.
    eexists s1, _. conjs; [exact Hg | exact Hd |].
    exists (set_dispframe None s1). conjs.
    + apply get_dispframe_val; assumption.
    + reflexivity.
    + apply get_dispframe_empty; [assumption | reflexivity].
Qed.

Lemma display_slot_take_witness :
  (capture fresh = Some demo_device /\ mutex fresh = false /\
   g_flag (good 1 0) = true) /\
  exists s1 f,
    grab_frame (P := demo_platform) (good 1 0) fresh = Ok tt s1 /\
    dispframe s1 = Some (f, g_now (good 1 0), fr_of (frame_dts s1)) /\
    exists s2,
      get_dispframe s1
        = Ok (Some (f, g_now (good 1 0), fr_of (frame_dts s1))) s2 /\
      dispframe s2 = None /\
      get_dispframe s2 = Ok None s2.
Proof.
  split; [conjs; reflexivity|].
  apply (display_slot_take (P := demo_platform) fresh (good 1 0) demo_device);
    reflexivity.
Defined.



(** * Further properties *)

(** ** Sequences of grabs *)

Section Sequences.
Context {P : Platform}.

(** On a free mutex and with a device a grab returns, whatever was read. *)
Lemma grab_frame_returns s g cap :
  capture s = Some cap -> mutex s = false ->
  exists s',
    grab_frame g s = Ok tt s' /\
    capture s' = capture s /\ mutex s' = false /\
    frame_dts s' = record_dtime (g_now g) (frame_dts s) /\
    saving s' = saving s /\ continuous s' = continuous s /\
    slots s' = slots s /\
    recframes s' = recframes s ++
      (if g_flag g && saving s
       then [(if convertible g then length (heap s) else empty_frame s,
              daynum10 (g_now g) +:+ nl)]
       else []) /\
    trace s' = trace s ++
      (if g_flag g
       then (if saving s then map NewFrame (slots s) else [])
       else [Warned "Couldn't grab frame from camera!"]).
Proof.
  intros Hc Hm. destruct (g_flag g) eqn:Hf.
  - destruct (grab_frame_read s g cap Hc Hm Hf)
      as (s' & Hg & _ & Hq & Ht & _ & _ & _ & Hdts & Hs & Hm' & Hc' & _ & Hco
          & Hsl & _).
    exists s'. cbn [andb]. conjs; assumption.
  - destruct (grab_frame_unread s g cap Hc Hf)
      as (s' & Hg & _ & Hq & Ht & Hdts & Hco & Hm' & Hs & Hc' & _ & _ & Hsl & _).
    exists s'. cbn [andb]. rewrite app_nil_r.
    conjs; try assumption; congruence.
Qed.

Lemma grab_frames_app gs1 gs2 s :
  grab_frames (gs1 ++ gs2) s = (grab_frames gs1 ;;; grab_frames gs2) s.
Proof.
  revert s. induction gs1 as [|g gs1 IH]; intros s; [reflexivity|].
  cbn [app grab_frames]. unfold bind in *.
  destruct (grab_frame g s); try reflexivity. apply IH.
Qed.


End Sequences.



Section MoreSequences.
Context {P : Platform}.






End MoreSequences.







(** ** The drain loop on any script *)

Section DrainOutcomes.
Context {P : Platform}.

(** Whatever the recorder thread does, the loop is left in good order or
    is still running when the script ends. *)
Lemma drain_outcome ticks : forall last dc s rc,
  mutex s = false -> recording s = Some rc ->
  is_pending (drain last 0 dc ticks s) = true \/
  exists d s' rc' added,
    drain last 0 dc ticks s = Ok d s' /\
    recording s' = Some rc' /\ rec_id rc' = rec_id rc /\
    rec_write_count rc <= rec_write_count rc' /\
    mutex s' = false /\ saving s' = saving s /\ slots s' = slots s /\
    trace s' = trace s ++ added.
Proof.
  induction ticks as [|t ticks IH]; intros last dc s rc Hm Hr;
    rewrite drain_eq.
  - destruct (recframes s) as [|x q] eqn:Eq.
    + right. erewrite bind_Ok by (apply poll_empty; assumption).
      exists dc, s, rc, []. rewrite app_nil_r.
      conjs; try first [reflexivity | assumption | lia].
    + destruct (poll_busy last dc s rc Hm Hr)
        as (s1 & Hp & Ht & _ & Hr1 & Hm1 & Hs1 & Hsl1 & _); [congruence|].
      cbv zeta in Hp, Ht. erewrite bind_Ok by exact Hp.
      destruct (_ =? 10); [right | left; reflexivity].
      eexists _, s1, rc, _.
      conjs; try first [reflexivity | eassumption | congruence | lia].
  - destruct (recframes s) as [|x q] eqn:Eq.
    + right. erewrite bind_Ok by (apply poll_empty; assumption).
      exists dc, s, rc, []. rewrite app_nil_r.
      conjs; try first [reflexivity | assumption | lia].
    + destruct (poll_busy last dc s rc Hm Hr)
        as (s1 & Hp & Ht & _ & Hr1 & Hm1 & Hs1 & Hsl1 & _); [congruence|].
      cbv zeta in Hp, Ht. erewrite bind_Ok by exact Hp.
      destruct (_ =? 10).
      * right. eexists _, s1, rc, _.
        conjs; try first [reflexivity | eassumption | congruence | lia].
      * rewrite Hr in Hr1.
        destruct (msleep_eq t s1 rc Hm1 Hr1)
          as (s2 & Hsl & Ht2 & _ & Hr2 & Hm2 & Hs2 & Hsl2 & _).
        erewrite bind_Ok by exact Hsl.
        destruct (IH last
                    (if last =? rec_write_count rc then dc + 1 else dc)
                    s2 (bump (t_writes t) rc) Hm2 Hr2)
          as [Hpend | (d & s' & rc' & added & Hd & Hr' & Hid & Hw & Hm' & Hs'
                       & Hsl' & Ht')].
        -- left. exact Hpend.
        -- right. exists d, s', rc'.
           eexists. conjs; try first [eassumption | congruence].
           ++ cbn [bump rec_write_count] in Hw. lia.
           ++ rewrite Ht', Ht2, Ht, <- !app_assoc. reflexivity.
Qed.

(** Once the write count has moved past [last] the counter stands still:
    the loop is left only through its test, on an empty queue, and sends
    no error. *)
Lemma drain_progressed ticks : forall last dc s rc,
  mutex s = false -> recording s = Some rc ->
  last < rec_write_count rc -> dc <> 10 ->
  (is_pending (drain last 0 dc ticks s) = true \/
   value_of (drain last 0 dc ticks s) = Some dc /\
   recframes (state_of (drain last 0 dc ticks s)) = []) /\
  exists added,
    trace (state_of (drain last 0 dc ticks s)) = trace s ++ added /\
    forall msg, ErrorRaised msg ∉ added.
Proof.
  assert (Hlines : forall wc n msg, ErrorRaised msg ∉ poll_lines wc n).
  { intros wc n msg. unfold poll_lines.
    rewrite !not_elem_of_cons. conjs; try discriminate. apply not_elem_of_nil. }
  induction ticks as [|t ticks IH]; intros last dc s rc Hm Hr Hlt Hdc;
    rewrite drain_eq.
  - destruct (recframes s) as [|x q] eqn:Eq.
    + erewrite bind_Ok by (apply poll_empty; assumption). cbn.
      split; [right; auto|]. exists []. rewrite app_nil_r.
      split; [reflexivity | intros msg; apply not_elem_of_nil].
    + destruct (poll_busy last dc s rc Hm Hr)
        as (s1 & Hp & Ht & _); [congruence|].
      cbv zeta in Hp, Ht. erewrite bind_Ok by exact Hp.
      destruct (Z.eqb_spec last (rec_write_count rc)) as [E|_]; [lia|].
      destruct (Z.eqb_spec dc 10) as [E|_]; [lia|].
      cbn. split; [left; reflexivity|].
      rewrite app_nil_r in Ht. eexists. split; [exact Ht | apply Hlines].
  - destruct (recframes s) as [|x q] eqn:Eq.
    + erewrite bind_Ok by (apply poll_empty; assumption). cbn.
      split; [right; auto|]. exists []. rewrite app_nil_r.
      split; [reflexivity | intros msg; apply not_elem_of_nil].
    + destruct (poll_busy last dc s rc Hm Hr)
        as (s1 & Hp & Ht & _ & Hr1 & Hm1 & _); [congruence|].
      cbv zeta in Hp, Ht. erewrite bind_Ok by exact Hp.
      destruct (Z.eqb_spec last (rec_write_count rc)) as [E|_]; [lia|].
      destruct (Z.eqb_spec dc 10) as [E|_]; [lia|].
      rewrite app_nil_r in Ht. rewrite Hr in Hr1.
      destruct (msleep_eq t s1 rc Hm1 Hr1)
        as (s2 & Hsl & Ht2 & _ & Hr2 & Hm2 & _).
      erewrite bind_Ok by exact Hsl.
      destruct (IH last dc s2 (bump (t_writes t) rc) Hm2 Hr2)
        as [Hout (added & Ht' & Hno)];
        [cbn [bump rec_write_count]; lia | assumption |].
      split; [exact Hout|].
      eexists. split.
      * rewrite Ht', Ht2, Ht, <- !app_assoc. reflexivity.
      * intros msg. rewrite !not_elem_of_app. conjs; [apply Hlines | | apply Hno].
        rewrite not_elem_of_cons. split; [discriminate | apply not_elem_of_nil].
Qed.

(** After progress, with frames left that nobody takes, the loop sleeps
    for as long as the script lasts. *)
Lemma drain_waits_after_progress n : forall last dc s rc,
  mutex s = false -> recording s = Some rc ->
  last <> rec_write_count rc -> dc <> 10 -> recframes s <> [] ->
  is_pending (drain last 0 dc (repeat idle n) s) = true.
Proof.
  induction n as [|n IH]; intros last dc s rc Hm Hr Hne Hdc Hq;
    rewrite drain_eq;
    destruct (poll_busy last dc s rc Hm Hr Hq)
      as (s1 & Hp & _ & Hq1 & Hr1 & Hm1 & _);
    cbv zeta in Hp; erewrite bind_Ok by exact Hp;
    destruct (Z.eqb_spec last (rec_write_count rc)) as [E|_]; try lia;
    destruct (Z.eqb_spec dc 10) as [E|_]; try lia.
  - reflexivity.
  - cbn [repeat]. rewrite Hr in Hr1.
    destruct (msleep_eq idle s1 rc Hm1 Hr1)
      as (s2 & Hsl & _ & Hq2 & Hr2 & Hm2 & _).
    erewrite bind_Ok by exact Hsl. cbn [idle t_pops] in Hq2.
    rewrite drop_0 in Hq2.
    apply (IH last dc s2 (bump 0 rc)); try assumption.
    + cbn [bump rec_write_count]. lia.
    + congruence.
Qed.

End DrainOutcomes.

Section StopSavingOutcomes.
Context {P : Platform}.

(** What [stop_saving] does after its loop. *)
Lemma stop_saving_finish now rid s rc :
  recording s = Some rc ->
  exists s',
    (wc <- get_write_count ;;
     emit (TimestampSet (summary now wc)) ;;;
     emit (Released rid) ;;;
     emit ThreadStopped ;;;
     modify (set_recording None) ;;;
     modify (set_recordingThread None)) s = Ok tt s' /\
    trace s' = trace s ++
      [TimestampSet (summary now (rec_write_count rc)); Released rid;
       ThreadStopped] /\
    recording s' = None /\ recordingThread s' = None /\
    recframes s' = recframes s /\ saving s' = saving s /\
    slots s' = slots s /\ mutex s' = mutex s.
Proof.
  intros Hr. steps. eexists; split; [prim|]. norm.
  rewrite <- !app_assoc. cbn [app]. conjs; reflexivity.
Qed.

Lemma bind_pending_state {A B} (m : M A) (k : A -> M B) s :
  is_pending (m s) = true ->
  is_pending (bind m k s) = true /\ state_of (bind m k s) = state_of (m s).
Proof. unfold bind. destruct (m s); cbn; intros; [congruence | | |]; auto; congruence. Qed.

(** The first pass over a queue that is not empty, and the sleep after. *)
Lemma drain_first_sleep t ticks s rc :
  mutex s = false -> recording s = Some rc -> recframes s <> [] ->
  exists s2,
    drain (rec_write_count rc) 0 (-1) (t :: ticks) s
      = drain (rec_write_count rc) 0 0 ticks s2 /\
    trace s2 = trace s
      ++ stalled_pass (rec_write_count rc) (length (recframes s)) /\
    recframes s2 = drop (t_pops t) (recframes s) /\
    recording s2 = Some (bump (t_writes t) rc) /\
    mutex s2 = false /\ saving s2 = saving s /\ slots s2 = slots s.
Proof.
  intros Hm Hr Hq.
  destruct (poll_busy (rec_write_count rc) (-1) s rc Hm Hr Hq)
    as (s1 & Hp & Ht & Hq1 & Hr1 & Hm1 & Hs1 & Hsl1 & _).
  cbv zeta in Hp, Ht. rewrite Z.eqb_refl in Hp, Ht.
  change (-1 + 1) with 0 in Hp, Ht. cbn [Z.eqb] in Hp, Ht.
  rewrite app_nil_r in Ht.
  rewrite Hr in Hr1.
  destruct (msleep_eq t s1 rc Hm1 Hr1)
    as (s2 & Hsl & Ht2 & Hq2 & Hr2 & Hm2 & Hs2 & Hsl2 & _).
  exists s2. rewrite (drain_eq _ _ (-1) (t :: ticks)).
  erewrite bind_Ok by exact Hp. cbv beta iota.
  erewrite bind_Ok by exact Hsl.
  conjs; try first [reflexivity | assumption | congruence].
  rewrite Ht2, Ht. unfold stalled_pass. rewrite <- app_assoc. reflexivity.
Qed.

End StopSavingOutcomes.

(** X5: [stop_saving] on an open session never raises and never waits for
    the mutex.  When it returns, the summary was sent, the recorder
    released and its thread stopped, in that order and as the last three
    things sent out; the recorder and thread fields are cleared, the saving
    flag is off and the recorder is disconnected from the new-frame
    signal. *)
Theorem stop_saving_closes_session {P : Platform} s rc l' now ticks :
  mutex s = false -> recording s = Some rc ->
  remove_first (rec_id rc) (slots s) = Some l' ->
  is_pending (stop_saving now ticks s) = true \/
  exists s' wc before,
    stop_saving now ticks s = Ok tt s' /\
    trace s' = trace s ++ before ++
      [TimestampSet (summary now wc); Released (rec_id rc); ThreadStopped] /\
    rec_write_count rc <= wc /\
    recording s' = None /\ recordingThread s' = None /\
    saving s' = false /\ slots s' = l' /\ mutex s' = false.
Proof.
  intros Hm Hr Hcon.
  rewrite (stop_saving_prefix now ticks s rc l' Hm Hr Hcon).
  destruct (drain_outcome ticks (rec_write_count rc) (-1)
              (set_slots l' (set_saving false s)) rc Hm Hr)
    as [Hpend | (d & s1 & rc1 & added & Hd & Hr1 & Hid & Hw & Hm1 & Hs1 & Hsl1
                 & Ht1)].
  - left. apply is_pending_bind, Hpend.
  - right. erewrite bind_Ok by exact Hd. cbv beta.
    destruct (stop_saving_finish now (rec_id rc) s1 rc1 Hr1)
      as (s' & Hf & Ht & Hrec & Hth & _ & Hs' & Hsl' & Hm').
    cbn [saving slots trace set_slots set_saving] in Hs1, Hsl1, Ht1.
    exists s', (rec_write_count rc1), added.
    conjs; try first [assumption | congruence].
    rewrite Ht, Ht1, <- app_assoc. reflexivity.
Qed.

Lemma stop_saving_closes_session_witness :
  (mutex five_queued = false /\
   recording five_queued = Some session_recorder /\
   remove_first (rec_id session_recorder) (slots five_queued) = Some []) /\
  (is_pending (stop_saving (P := demo_platform) 0 [writes 2; writes 3]
                 five_queued) = true \/
   exists s' wc before,
     stop_saving (P := demo_platform) 0 [writes 2; writes 3] five_queued
       = Ok tt s' /\
     trace s' = trace five_queued ++ before ++
       [TimestampSet (summary (P := demo_platform) 0 wc);
        Released (rec_id session_recorder); ThreadStopped] /\
     rec_write_count session_recorder <= wc /\
     recording s' = None /\ recordingThread s' = None /\
     saving s' = false /\ slots s' = [] /\ mutex s' = false).
Proof.
  split; [conjs; reflexivity|].
  apply (stop_saving_closes_session (P := demo_platform) five_queued
           session_recorder [] 0 [writes 2; writes 3]); reflexivity.
Defined.

(** X6: with nothing left in the queue [stop_saving] neither polls nor
    sleeps: it sends the summary with the write count as it stands,
    releases the recorder and returns, whatever the recorder thread would
    have done next. *)
Theorem stop_saving_on_empty_queue {P : Platform} s rc l' now ticks :
  mutex s = false -> recording s = Some rc ->
  remove_first (rec_id rc) (slots s) = Some l' -> recframes s = [] ->
  exists s',
    stop_saving now ticks s = Ok tt s' /\
    trace s' = trace s ++
      [TimestampSet (summary now (rec_write_count rc)); Released (rec_id rc);
       ThreadStopped] /\
    recording s' = None /\ saving s' = false.
Proof.
  intros Hm Hr Hcon Hq.
  rewrite (stop_saving_prefix now ticks s rc l' Hm Hr Hcon).
  rewrite drain_eq.
  erewrite bind_Ok
    by (erewrite bind_Ok by (apply poll_empty; [exact Hm | exact Hq]);
        reflexivity).
  cbv beta.
  destruct (stop_saving_finish now (rec_id rc)
              (set_slots l' (set_saving false s)) rc Hr)
    as (s' & Hf & Ht & Hrec & _ & _ & Hs' & _).
  exists s'. conjs; assumption.
Qed.

Lemma stop_saving_on_empty_queue_witness :
  (mutex (set_recframes [] five_queued) = false /\
   recording (set_recframes [] five_queued) = Some session_recorder /\
   remove_first (rec_id session_recorder)
     (slots (set_recframes [] five_queued)) = Some [] /\
   recframes (set_recframes [] five_queued) = []) /\
  exists s',
    stop_saving (P := demo_platform) 0 [writes 1]
      (set_recframes [] five_queued) = Ok tt s' /\
    trace s' = trace (set_recframes [] five_queued) ++
      [TimestampSet (summary (P := demo_platform) 0
                       (rec_write_count session_recorder));
       Released (rec_id session_recorder); ThreadStopped] /\
    recording s' = None /\ saving s' = false.
Proof.
  split; [conjs; reflexivity|].
  apply (stop_saving_on_empty_queue (P := demo_platform)
           (set_recframes [] five_queued) session_recorder [] 0 [writes 1]);
    reflexivity.
Defined.

(** X7: when the recorder thread takes every queued frame during the first
    sleep, [stop_saving] returns after that one sleep: one pass of two
    printed lines, one sleep of 100 ms, then the summary with the write
    count the thread has reached, and the queue is empty. *)
Theorem stop_saving_after_one_sleep {P : Platform} s rc l' now t ticks :
  mutex s = false -> recording s = Some rc ->
  remove_first (rec_id rc) (slots s) = Some l' ->
  recframes s <> [] -> (length (recframes s) <= t_pops t)%nat ->
  exists s',
    stop_saving now (t :: ticks) s = Ok tt s' /\
    trace s' = trace s
      ++ stalled_pass (rec_write_count rc) (length (recframes s))
      ++ [TimestampSet (summary now (rec_write_count rc + Z.of_nat (t_writes t)));
          Released (rec_id rc); ThreadStopped] /\
    recframes s' = [] /\ recording s' = None /\ saving s' = false.
Proof.
  intros Hm Hr Hcon Hq Hpops.
  rewrite (stop_saving_prefix now _ s rc l' Hm Hr Hcon).
  destruct (drain_first_sleep t ticks (set_slots l' (set_saving false s)) rc
              Hm Hr Hq)
    as (s2 & Hd & Ht2 & Hq2 & Hr2 & Hm2 & Hs2 & _).
  assert (Hq2' : recframes s2 = []).
  { rewrite Hq2. apply drop_ge. exact Hpops. }
  erewrite bind_Ok
    by (rewrite Hd, drain_eq;
        erewrite bind_Ok by (apply poll_empty; [exact Hm2 | exact Hq2']);
        reflexivity).
  cbv beta.
  destruct (stop_saving_finish now (rec_id rc) s2 _ Hr2)
    as (s' & Hf & Ht & Hrec & _ & Hq' & Hs' & _).
  cbn [saving recframes trace set_slots set_saving] in Ht2, Hs2.
  cbn [bump rec_write_count] in Ht.
  exists s'. conjs; try first [assumption | congruence].
  rewrite Ht, Ht2, <- app_assoc. reflexivity.
Qed.

Lemma stop_saving_after_one_sleep_witness :
  (mutex five_queued = false /\
   recording five_queued = Some session_recorder /\
   remove_first (rec_id session_recorder) (slots five_queued) = Some [] /\
   recframes five_queued <> [] /\
   (length (recframes five_queued) <= t_pops (writes 5))%nat) /\
  exists s',
    stop_saving (P := demo_platform) 0 (writes 5 :: []) five_queued = Ok tt s' /\
    recframes s' = [] /\ recording s' = None /\ saving s' = false.
Proof.
  assert (Hq : recframes five_queued <> []) by (vm_compute; discriminate).
  assert (Hl : (length (recframes five_queued) <= t_pops (writes 5))%nat)
    by (vm_compute; lia).
  split; [conjs; try reflexivity; assumption|].
  destruct (stop_saving_after_one_sleep (P := demo_platform) five_queued
              session_recorder [] 0 (writes 5) [] eq_refl eq_refl eq_refl Hq Hl)
    as (s' & Hs & _ & Hq' & Hr' & Hs').
  exists s'. conjs; assumption.
Defined.

(** X8: if the recorder thread writes at least one frame during the first
    sleep, [stop_saving] never sends an error afterwards and returns only
    once the queue is empty; if frames are left that the thread then never
    takes, it goes on sleeping for as long as it is watched. *)
Theorem stop_saving_after_progress {P : Platform} s rc l' now t ticks :
  mutex s = false -> recording s = Some rc ->
  remove_first (rec_id rc) (slots s) = Some l' ->
  (0 < t_writes t)%nat ->
  (is_pending (stop_saving now (t :: ticks) s) = true \/
   exists s', stop_saving now (t :: ticks) s = Ok tt s' /\ recframes s' = []) /\
  (exists added,
     trace (state_of (stop_saving now (t :: ticks) s)) = trace s ++ added /\
     forall msg, ErrorRaised msg ∉ added) /\
  (drop (t_pops t) (recframes s) <> [] ->
   forall n, is_pending (stop_saving now (t :: repeat idle n) s) = true).
Proof.
  intros Hm Hr Hcon Hw.
  assert (Hlines : forall wc n msg, ErrorRaised msg ∉ stalled_pass wc n).
  { intros wc n msg. unfold stalled_pass, poll_lines. cbn [app].
    rewrite !not_elem_of_cons. conjs; try discriminate. apply not_elem_of_nil. }
  assert (Hfin : forall wc rid msg,
             ErrorRaised msg ∉ [TimestampSet (summary now wc); Released rid;
                                ThreadStopped]).
  { intros wc rid msg.
    rewrite !not_elem_of_cons. conjs; try discriminate. apply not_elem_of_nil. }
  pose proof (stop_saving_prefix now (t :: ticks) s rc l' Hm Hr Hcon) as E1.
  pose proof (fun n =>
                stop_saving_prefix now (t :: repeat idle n) s rc l' Hm Hr Hcon)
    as E2.
  rewrite E1. clear E1.
  set (s0 := set_slots l' (set_saving false s)) in *.
  match goal with
  | |- context [bind (drain _ _ _ (t :: ticks)) ?K _] => set (k := K) in *
  end.
  assert (Hm0 : mutex s0 = false) by exact Hm.
  assert (Hr0 : recording s0 = Some rc) by exact Hr.
  assert (Hk : forall d s3 rc3,
             recording s3 = Some rc3 ->
             exists s',
               k d s3 = Ok tt s' /\
               trace s' = trace s3 ++
                 [TimestampSet (summary now (rec_write_count rc3));
                  Released (rec_id rc); ThreadStopped] /\
               recframes s' = recframes s3).
  { intros d s3 rc3 Hr3.
    destruct (stop_saving_finish now (rec_id rc) s3 rc3 Hr3)
      as (s' & Hf & Ht & _ & _ & Hq' & _).
    exists s'. auto. }
  destruct (recframes s) as [|x q] eqn:Eq.
  - assert (Hq0 : recframes s0 = []) by exact Eq.
    destruct (Hk (-1) s0 rc Hr0) as (s' & Hf & Ht & Hq').
    assert (Hrun : bind (drain (rec_write_count rc) 0 (-1) (t :: ticks)) k s0
                   = Ok tt s').
    { rewrite drain_eq.
      erewrite bind_Ok
        by (erewrite bind_Ok by (apply poll_empty; [exact Hm0 | exact Hq0]);
            reflexivity).
      exact Hf. }
    rewrite Hrun. conjs.
    + right. exists s'. split; [reflexivity | congruence].
    + cbn [state_of]. eexists. split; [exact Ht | apply Hfin].
    + rewrite drop_nil. congruence.
  - assert (Hq0 : recframes s0 <> []) by (change (recframes s <> []); congruence).
    rewrite <- Eq. clear Eq.
    destruct (drain_first_sleep t ticks s0 rc Hm0 Hr0 Hq0)
      as (s2 & Hd & Ht2 & Hq2 & Hr2 & Hm2 & _).
    cbn [trace recframes set_slots set_saving] in Ht2. fold s0 in Ht2.
    assert (Hgt : rec_write_count rc < rec_write_count (bump (t_writes t) rc))
      by (cbn [bump rec_write_count]; lia).
    destruct (drain_progressed ticks (rec_write_count rc) 0 s2 _ Hm2 Hr2 Hgt)
      as [Hout (added & Ht' & Hno)]; [discriminate|].
    rewrite <- Hd in Hout, Ht'.
    assert (Hwait : drop (t_pops t) (recframes s) <> [] ->
                    forall n,
                      is_pending (stop_saving now (t :: repeat idle n) s) = true).
    { intros Hleft n. rewrite E2. apply is_pending_bind.
      destruct (drain_first_sleep t (repeat idle n) s0 rc Hm0 Hr0 Hq0)
        as (s2' & Hd2 & _ & Hq2' & Hr2' & Hm2' & _).
      rewrite Hd2.
      apply (drain_waits_after_progress n _ 0 s2' _ Hm2' Hr2');
        [cbn [bump rec_write_count]; lia | discriminate |].
      rewrite Hq2'. exact Hleft. }
    destruct (drain_outcome (t :: ticks) (rec_write_count rc) (-1) s0 rc
                Hm0 Hr0)
      as [Hp | (d' & s3 & rc3 & ad & Hres & Hr3 & _)].
    + pose proof (bind_pending_state _ k s0 Hp) as [Hp1 Hp2].
      conjs; [left; exact Hp1 | | exact Hwait].
      rewrite Hp2. eexists. split.
      * rewrite Ht', Ht2, <- !app_assoc. reflexivity.
      * intros msg. rewrite !not_elem_of_app. conjs; [apply Hlines | apply Hno].
    + rewrite Hres in Hout, Ht'. cbn [is_pending value_of state_of] in Hout, Ht'.
      destruct Hout as [Hout | [_ Hq3]]; [discriminate|].
      destruct (Hk d' s3 rc3 Hr3) as (s' & Hf & Ht & Hq').
      erewrite bind_Ok by exact Hres. rewrite Hf.
      conjs; [right; exists s'; split; [reflexivity | congruence] | | exact Hwait].
      cbn [state_of]. eexists. split.
      * rewrite Ht, Ht', Ht2, <- !app_assoc. reflexivity.
      * intros msg. rewrite !not_elem_of_app.
        conjs; [apply Hlines | apply Hno | apply Hfin].
Qed.

Lemma stop_saving_after_progress_witness :
  (mutex five_queued = false /\
   recording five_queued = Some session_recorder /\
   remove_first (rec_id session_recorder) (slots five_queued) = Some [] /\
   (0 < t_writes (writes 1))%nat /\
   drop (t_pops (writes 1)) (recframes five_queued) <> []) /\
  forall n,
    is_pending (stop_saving (P := demo_platform) 0 (writes 1 :: repeat idle n)
                  five_queued) = true.
Proof.
  assert (Hw : (0 < t_writes (writes 1))%nat) by (cbn; lia).
  assert (Hq : drop (t_pops (writes 1)) (recframes five_queued) <> [])
    by (vm_compute; discriminate).
  split; [conjs; try reflexivity; assumption|].
  destruct (stop_saving_after_progress (P := demo_platform) five_queued
              session_recorder [] 0 (writes 1) [] eq_refl eq_refl eq_refl Hw)
    as (_ & _ & Hwait).
  exact (Hwait Hq).
Defined.

(** ** Starting a recording *)

Section NewRecording.

(** [new_recording] up to the call of [get_resolution]: the rate it will
    hand to the recorder, and the state at that point. *)
Lemma new_recording_rate_eq arg o s :
  mutex s = false ->
  let effective :=
    if triggered s then arg
    else match dispframe s with
         | Some (_, _, fr) => fr
         | None => framerate s
         end in
  let s1 :=
    if triggered s then s
    else match dispframe s with
         | Some _ => set_dispframe None s
         | None =>
             log (Printed "FPS was not successfully read out and set")
               (set_dispframe None s)
         end in
  new_recording arg o s =
    (res <- get_resolution ;;
     c <- gets color ;;
     modify (set_recording
               (Some {| rec_id := o_id o; rec_opened := o_opened o;
                        rec_fps := effective; rec_resolution := res;
                        rec_color := c; rec_write_count := o_count o |})) ;;;
     if negb (o_opened o) then
       emit (ErrorRaised "Video-recording could not be started.") ;;;
       ret (Some false)
     else
       modify (set_recordingThread (Some (o_id o))) ;;;
       emit (ThreadStarted (o_id o)) ;;;
       connect (o_id o) ;;;
       ret None) s1.
Proof.
  intros Hm. unfold new_recording. step.
  destruct (triggered s) eqn:Ht; cbn [negb].
  - step. reflexivity.
  - destruct (dispframe s) as [[[f t] fr]|] eqn:Hd.
    + erewrite bind_Ok by (apply try_Ok; prim). reflexivity.
    + erewrite bind_Ok
        by (erewrite try_Raise
              by (erewrite bind_Ok by prim; cbv beta iota; reflexivity);
            prim).
      reflexivity.
Qed.

End NewRecording.

(** X9: the recorder is created with the resolution of the device, the
    colour mode of the camera and a rate chosen thus: the [framerate]
    argument only if the camera is triggered; otherwise the rate of the
    frame waiting in the display slot, which is thereby taken out of the
    slot; and with an empty slot the configured frame rate. *)
Theorem new_recording_chooses_rate s arg o cap :
  capture s = Some cap -> mutex s = false ->
  exists s' ret rc,
    new_recording arg o s = Ok ret s' /\
    recording s' = Some rc /\
    rec_fps rc =
      (if triggered s then arg
       else match dispframe s with
            | Some (_, _, fr) => fr
            | None => framerate s
            end) /\
    rec_resolution rc = (cap_width cap, cap_height cap) /\
    rec_color rc = color s /\
    rec_write_count rc = o_count o /\
    dispframe s' = (if triggered s then dispframe s else None).
Proof.
  intros Hc Hm. rewrite (new_recording_rate_eq arg o s Hm). cbv zeta.
  destruct (triggered s) eqn:Ht, (dispframe s) as [[[f t] fr]|] eqn:Hd,
           (o_opened o);
    cbn [negb]; steps; unfold connect; steps;
    (do 3 eexists; split; [prim|]); norm;
    conjs; first [reflexivity | assumption].
Qed.

Lemma new_recording_chooses_rate_witness :
  (capture one_written = Some demo_device /\ mutex one_written = false) /\
  exists s' ret rc,
    new_recording 5 (opening 2 true) one_written = Ok ret s' /\
    recording s' = Some rc /\
    rec_fps rc =
      (if triggered one_written then 5%Q
       else match dispframe one_written with
            | Some (_, _, fr) => fr
            | None => framerate one_written
            end) /\
    dispframe s' = None.
Proof.
  split; [split; reflexivity|].
  destruct (new_recording_chooses_rate one_written 5 (opening 2 true)
              demo_device eq_refl eq_refl)
    as (s' & ret & rc & Hn & Hr & Hf & _ & _ & _ & Hd).
  exists s', ret, rc. conjs; [exact Hn | exact Hr | exact Hf | exact Hd].
Defined.

(** X10: when the recorder opens, [new_recording] starts its thread and
    connects it to the new-frame signal, but does not switch saving on: a
    frame grabbed next is not queued and nobody is notified; after
    [start_saving] the next frame is queued and the new recorder is
    notified along with those connected before. *)
Theorem new_recording_then_start_saving {P : Platform} s arg o cap g :
  capture s = Some cap -> mutex s = false -> o_opened o = true ->
  saving s = false -> g_flag g = true ->
  exists s1,
    new_recording arg o s = Ok None s1 /\
    recordingThread s1 = Some (o_id o) /\
    slots s1 = slots s ++ [o_id o] /\
    saving s1 = false /\ recframes s1 = recframes s /\
    trace s1 = trace s ++
      (if triggered s then []
       else match dispframe s with
            | Some _ => []
            | None => [Printed "FPS was not successfully read out and set"]
            end) ++ [ThreadStarted (o_id o)] /\
    (exists s2,
       grab_frame g s1 = Ok tt s2 /\
       recframes s2 = recframes s /\ trace s2 = trace s1) /\
    (exists s2 f,
       (start_saving ;;; grab_frame g) s1 = Ok tt s2 /\
       recframes s2 = recframes s ++ [(f, daynum10 (g_now g) +:+ nl)] /\
       trace s2 = trace s1 ++ map NewFrame (slots s ++ [o_id o])).
Proof.
  intros Hc Hm Ho Hs Hf.
  assert (H1 : exists s1,
             new_recording arg o s = Ok None s1 /\
             recordingThread s1 = Some (o_id o) /\
             slots s1 = slots s ++ [o_id o] /\
             saving s1 = false /\ recframes s1 = recframes s /\
             trace s1 = trace s ++
               (if triggered s then []
                else match dispframe s with
                     | Some _ => []
                     | None =>
                         [Printed "FPS was not successfully read out and set"]
                     end) ++ [ThreadStarted (o_id o)] /\
             capture s1 = Some cap /\ mutex s1 = false).
  { rewrite (new_recording_rate_eq arg o s Hm). cbv zeta. rewrite Ho.
    destruct (triggered s), (dispframe s) as [[[f t] fr]|];
      cbn [negb]; steps; unfold connect; steps;
      (eexists; split; [prim|]); norm; rewrite <- ?app_assoc;
      conjs; first [reflexivity | assumption]. }
  destruct H1 as (s1 & Hn & Hth & Hsl & Hs1 & Hq1 & Ht1 & Hc1 & Hm1).
  exists s1. conjs; try assumption.
  - destruct (grab_frame_read s1 g cap Hc1 Hm1 Hf)
      as (s2 & Hg & _ & Hq & Ht & _).
    rewrite Hs1, app_nil_r in Hq, Ht. exists s2. conjs; congruence.
  - destruct (grab_frame_read (set_saving true s1) g cap Hc1 Hm1 Hf)
      as (s2 & Hg & _ & Hq & Ht & _).
    cbn [saving recframes trace slots heap empty_frame set_saving] in Hq, Ht.
    exists s2. eexists.
    erewrite bind_Ok by (apply start_saving_eq; exact Hm1).
    conjs; [exact Hg | rewrite Hq, Hq1; reflexivity |].
    rewrite Ht, Hsl. reflexivity.
Qed.

Lemma new_recording_then_start_saving_witness :
  (capture fresh = Some demo_device /\ mutex fresh = false /\
   o_opened (opening 1 true) = true /\ saving fresh = false /\
   g_flag (good 1 0) = true) /\
  exists s1,
    new_recording 0 (opening 1 true) fresh = Ok None s1 /\
    recordingThread s1 = Some 1%nat /\
    (exists s2 f,
       (start_saving ;;; grab_frame (P := demo_platform) (good 1 0)) s1
         = Ok tt s2 /\
       recframes s2 = recframes fresh ++ [(f, "0" +:+ nl)]).
Proof.
  split; [conjs; reflexivity|].
  destruct (new_recording_then_start_saving (P := demo_platform) fresh 0
              (opening 1 true) demo_device (good 1 0)
              eq_refl eq_refl eq_refl eq_refl eq_refl)
    as (s1 & Hn & Hth & _ & _ & _ & _ & _ & (s2 & f & Hg & Hq & _)).
  exists s1. conjs; [exact Hn | exact Hth |].
  exists s2, f. split; [exact Hg | exact Hq].
Defined.

(** ** A camera without a device *)



(** ** The mutex after an exception *)

Section HeldMutex.
Context {P : Platform}.

(** With the mutex held, every method that locks waits without end. *)
Lemma held_mutex_blocks s :
  mutex s = true ->
  get_dispframe s = Blocked s /\ get_recframe s = Blocked s /\
  get_recframesize s = Blocked s /\ is_saving s = Blocked s /\
  is_recording s = Blocked s /\ stop_capture s = Blocked s /\
  start_saving s = Blocked s /\
  (forall now ticks, stop_saving now ticks s = Blocked s) /\
  (forall g cap, capture s = Some cap -> g_flag g = true ->
                 exists s', grab_frame g s = Blocked s').
Proof.
  intros Hm.
  assert (Hl : lock s = Blocked s) by (apply lock_held; exact Hm).
  conjs; try (intros; apply bind_Blocked; exact Hl).
  intros g cap Hc Hf. eapply grab_frame_blocked; eassumption.
Qed.

End HeldMutex.

(** X12: [is_recording] on a camera whose [continuous] flag was never set
    (neither [start_capture] nor [stop_capture] has run) raises
    [AttributeError] between [lock] and [unlock]: the mutex stays held, and
    from then on taking the display frame, taking or counting queued
    frames, stopping capture and grabbing a frame that was read all wait
    for it without end. *)
Theorem is_recording_before_start_holds_mutex {P : Platform} s :
  mutex s = false -> continuous s = None ->
  exists s',
    is_recording s = Raise AttributeError s' /\
    mutex s' = true /\
    get_dispframe s' = Blocked s' /\ get_recframe s' = Blocked s' /\
    get_recframesize s' = Blocked s' /\ stop_capture s' = Blocked s' /\
    (forall g cap, capture s = Some cap -> g_flag g = true ->
                   exists s'', grab_frame g s' = Blocked s'').
Proof.
  intros Hm Hc. exists (set_mutex true s).
  destruct (held_mutex_blocks (set_mutex true s) eq_refl)
    as (H1 & H2 & H3 & _ & _ & H6 & _ & _ & H9).
  conjs; try assumption; try reflexivity.
  unfold is_recording. steps. reflexivity.
Qed.

Lemma is_recording_before_start_holds_mutex_witness :
  (mutex fresh = false /\ continuous fresh = None) /\
  exists s',
    is_recording fresh = Raise AttributeError s' /\
    mutex s' = true /\ get_recframe s' = Blocked s'.
Proof.
  split; [split; reflexivity|].
  destruct (is_recording_before_start_holds_mutex (P := demo_platform) fresh
              eq_refl eq_refl) as (s' & Hr & Hm & _ & Hq & _).
  exists s'. conjs; assumption.
Defined.

(** X13: [stop_saving] without a session raises [AttributeError] with the
    mutex held and without sending anything: the saving flag is off, the
    queue is untouched, and afterwards a grab whose read succeeded, and any
    further [stop_saving], wait for the mutex without end. *)
Theorem stop_saving_without_session_holds_mutex {P : Platform} s now ticks :
  mutex s = false -> recording s = None ->
  exists s',
    stop_saving now ticks s = Raise AttributeError s' /\
    mutex s' = true /\ saving s' = false /\
    trace s' = trace s /\ recframes s' = recframes s /\
    (forall now' ticks', stop_saving now' ticks' s' = Blocked s') /\
    (forall g cap, capture s = Some cap -> g_flag g = true ->
                   exists s'', grab_frame g s' = Blocked s'').
Proof.
  intros Hm Hr. exists (set_saving false (set_mutex true s)).
  destruct (held_mutex_blocks (set_saving false (set_mutex true s)) eq_refl)
    as (_ & _ & _ & _ & _ & _ & _ & H8 & H9).
  conjs; try assumption; try reflexivity.
  unfold stop_saving. steps. reflexivity.
Qed.

Lemma stop_saving_without_session_holds_mutex_witness :
  (mutex fresh = false /\ recording fresh = None) /\
  exists s',
    stop_saving (P := demo_platform) 0 [] fresh = Raise AttributeError s' /\
    mutex s' = true /\
    (exists s'', grab_frame (P := demo_platform) (good 1 0) s' = Blocked s'').
Proof.
  split; [split; reflexivity|].
  destruct (stop_saving_without_session_holds_mutex (P := demo_platform) fresh
              0 [] eq_refl eq_refl) as (s' & Hr & Hm & _ & _ & _ & _ & Hg).
  exists s'. conjs; [exact Hr | exact Hm |].
  apply (Hg (good 1 0) demo_device); reflexivity.
Defined.

(** X14: after [new_recording] has failed to open its recorder,
    [stop_saving] finds a recorder that was never connected: the
    disconnect raises [TypeError], again with the mutex held; the recorder
    is not released and no summary is sent. *)
Theorem stop_saving_after_failed_open {P : Platform} s arg o cap now ticks :
  capture s = Some cap -> mutex s = false -> o_opened o = false ->
  remove_first (o_id o) (slots s) = None ->
  exists s1 s',
    new_recording arg o s = Ok (Some false) s1 /\
    stop_saving now ticks s1 = Raise TypeError s' /\
    mutex s' = true /\ trace s' = trace s1 /\
    recording s' = recording s1 /\ saving s' = false.
Proof.
  intros Hc Hm Ho Hcon.
  assert (H1 : exists s1 rc,
             new_recording arg o s = Ok (Some false) s1 /\
             recording s1 = Some rc /\ rec_id rc = o_id o /\
             slots s1 = slots s /\ mutex s1 = false).
  { rewrite (new_recording_rate_eq arg o s Hm). cbv zeta. rewrite Ho.
    destruct (triggered s), (dispframe s) as [[[f t] fr]|];
      cbn [negb]; steps;
      (do 2 eexists; split; [prim|]); norm;
      conjs; first [reflexivity | assumption]. }
  destruct H1 as (s1 & rc & Hn & Hr & Hid & Hsl & Hm1).
  exists s1. eexists. split; [exact Hn|].
  unfold stop_saving. steps. unfold disconnect.
  erewrite bind_Raise
    by (erewrite bind_Ok by prim; cbv beta;
        rewrite ?Hid, ?Hsl, Hcon; reflexivity).
  norm. conjs; reflexivity.
Qed.

Lemma stop_saving_after_failed_open_witness :
  (capture fresh = Some demo_device /\ mutex fresh = false /\
   o_opened (opening 1 false) = false /\
   remove_first (o_id (opening 1 false)) (slots fresh) = None) /\
  exists s1 s',
    new_recording 0 (opening 1 false) fresh = Ok (Some false) s1 /\
    stop_saving (P := demo_platform) 0 [] s1 = Raise TypeError s' /\
    mutex s' = true.
Proof.
  split; [conjs; reflexivity|].
  destruct (stop_saving_after_failed_open (P := demo_platform) fresh 0
              (opening 1 false) demo_device 0 []
              eq_refl eq_refl eq_refl eq_refl)
    as (s1 & s' & Hn & Hs & Hm & _).
  exists s1, s'. conjs; assumption.
Defined.

(** ** Frames shared by reference *)

Section SharedFrames.
Context {P : Platform}.

(** What a grab does to the arrays: it adds the converted image with its
    texts, or draws its texts into the fallback frame, and touches no
    other array. *)
Lemma grab_frame_arrays s g cap :
  capture s = Some cap -> mutex s = false ->
  exists s',
    grab_frame g s = Ok tt s' /\
    width s' = width s /\ height s' = height s /\
    (forall r o, heap s !! r = Some o ->
       heap s' !! r =
         Some (if negb (convertible g) && (r =? empty_frame s)%nat
               then drawn (stamps (width s) (height s) g) o else o)) /\
    (convertible g = true ->
     exists o, heap s' !! length (heap s) = Some o /\
               overlays o = stamps (width s) (height s) g).
Proof.
  intros Hc Hm. unfold grab_frame. step. steps.
  destruct (convertible g) eqn:Ec.
  - destruct (cvtColor_convertible g (code_of (color s)) Ec) as [o Ho].
    assert (Hov : overlays o = []).
    { unfold cvtColor in Ho. destruct (g_frame g); [|discriminate].
      destruct (_ || _); [|discriminate].
      destruct (code_of (color s)); injection Ho as <-; reflexivity. }
    erewrite bind_Ok by (apply conversion_Some; exact Ho). cbv beta. norm.
    destruct (g_remote g) as [speed|] eqn:Er, (g_flag g), (saving s) eqn:Es;
      cbn [negb]; steps;
      (eexists; split; [prim|]); norm; cbn [negb andb];
      (conjs; [reflexivity | reflexivity | |]);
      try (intros r o' Hr;
           rewrite ?list_lookup_alter;
           repeat (case_decide;
                   [subst r; apply lookup_lt_Some in Hr; lia|]);
           rewrite lookup_app_l by (eapply lookup_lt_Some; exact Hr);
           exact Hr);
      intros _; eexists; (split;
        [rewrite ?list_lookup_alter;
         repeat (case_decide; [|congruence]);
         rewrite lookup_app_r, Nat.sub_diag by lia; reflexivity
        |cbn; unfold stamps; rewrite Hov, Er; reflexivity]).
  - pose proof (cvtColor_unconvertible g (code_of (color s)) Ec) as Ho.
    erewrite bind_Ok by (apply conversion_None; exact Ho). cbv beta. norm.
    destruct (g_remote g) as [speed|] eqn:Er, (g_flag g), (saving s) eqn:Es;
      cbn [negb]; steps;
      (eexists; split; [prim|]); norm; cbn [negb andb];
      (conjs; [reflexivity | reflexivity | | discriminate]);
      intros r o' Hr;
      destruct (Nat.eqb_spec r (empty_frame s)) as [->|E];
      rewrite ?list_lookup_alter;
      repeat case_decide; try congruence;
      rewrite Hr; cbn; unfold drawn, add_overlay, stamps; cbn;
      rewrite Er, <- ?app_assoc; reflexivity.
Qed.

End SharedFrames.

(** X15: a frame that is already in the record queue is drawn over by a
    later grab whose conversion fails: that grab falls back on the very
    array queued before, so that the queued frame ends up with the texts of
    both grabs. *)
Theorem later_failure_redraws_queued_frame {P : Platform} s g1 g2 cap :
  capture s = Some cap -> mutex s = false -> saving s = true ->
  g_flag g1 = true -> convertible g1 = true -> convertible g2 = false ->
  exists s1 s2 f o,
    grab_frame g1 s = Ok tt s1 /\ grab_frame g2 s1 = Ok tt s2 /\
    recframes s1 = recframes s ++ [(f, daynum10 (g_now g1) +:+ nl)] /\
    (f, daynum10 (g_now g1) +:+ nl) ∈ recframes s2 /\
    heap s2 !! f = Some o /\
    overlays o =
      stamps (width s) (height s) g1 ++ stamps (width s) (height s) g2.
Proof.
  intros Hc Hm Hs Hf1 Hv1 Hv2.
  destruct (grab_frame_read s g1 cap Hc Hm Hf1)
    as (s1 & Hg1 & _ & Hq1 & _ & _ & Hef1 & _ & _ & _ & Hm1 & Hc1 & _).
  rewrite Hv1, Hs in Hq1. rewrite Hv1 in Hef1. rewrite Hc in Hc1.
  destruct (grab_frame_arrays s g1 cap Hc Hm)
    as (s1' & Hg1' & Hw1 & Hh1 & _ & Hnew).
  assert (s1' = s1) by congruence. subst s1'.
  destruct (Hnew Hv1) as (o1 & Ho1 & Hov1).
  destruct (grab_frame_returns s1 g2 cap Hc1 Hm1)
    as (s2 & Hg2 & _ & _ & _ & _ & _ & _ & Hq2 & _).
  destruct (grab_frame_arrays s1 g2 cap Hc1 Hm1)
    as (s2' & Hg2' & _ & _ & Hold & _).
  assert (s2' = s2) by congruence. subst s2'.
  pose proof (Hold _ _ Ho1) as Ho2.
  rewrite Hv2, Hef1, Nat.eqb_refl in Ho2. cbn [negb andb] in Ho2.
  exists s1, s2, (length (heap s)). eexists.
  conjs; [exact Hg1 | exact Hg2 | exact Hq1 | | exact Ho2 |].
  - rewrite Hq2, Hq1. apply elem_of_app. left. apply elem_of_app. right.
    apply list_elem_of_singleton. reflexivity.
  - cbn [drawn overlays]. rewrite Hov1, Hw1, Hh1. reflexivity.
Qed.

Lemma later_failure_redraws_queued_frame_witness :
  (capture (set_saving true fresh) = Some demo_device /\
   mutex (set_saving true fresh) = false /\
   saving (set_saving true fresh) = true /\
   g_flag (good 1 0) = true /\ convertible (good 1 0) = true /\
   convertible (failed 7) = false) /\
  exists s1 s2 f o,
    grab_frame (P := demo_platform) (good 1 0) (set_saving true fresh)
      = Ok tt s1 /\
    grab_frame (P := demo_platform) (failed 7) s1 = Ok tt s2 /\
    (f, "0" +:+ nl) ∈ recframes s2 /\
    heap s2 !! f = Some o /\
    overlays o = [("%Y-%m-%d %H:%M:%S@0"%string, 32, 24);
                  ("%Y-%m-%d %H:%M:%S@7"%string, 32, 24)].
Proof.
  split; [conjs; reflexivity|].
  destruct (later_failure_redraws_queued_frame (P := demo_platform)
              (set_saving true fresh) (good 1 0) (failed 7) demo_device
              eq_refl eq_refl eq_refl eq_refl eq_refl eq_refl)
    as (s1 & s2 & f & o & Hg1 & Hg2 & _ & Hin & Ho & Hov).
  exists s1, s2, f, o. conjs; [exact Hg1 | exact Hg2 | exact Hin | exact Ho |].
  exact Hov.
Defined.

(** ** Device properties *)

Section Properties.

Lemma drop_chars_short n : forall e, (String.length e <= n)%nat ->
  drop_chars n e = EmptyString.
Proof.
  induction n as [|n IH]; intros e Hl.
  - destruct e; [reflexivity | cbn in Hl; lia].
  - destruct e as [|c e]; [reflexivity|]. cbn [drop_chars].
    apply IH. cbn in Hl. lia.
Qed.

Lemma filter_filter {A} (p q : A -> bool) l :
  List.filter q (List.filter p l) = List.filter (fun x => p x && q x) l.
Proof.
  induction l as [|x l IH]; [reflexivity|]. cbn [List.filter].
  destruct (p x); cbn [andb List.filter]; [destruct (q x)|]; congruence.
Qed.

(** Assignments in order: the last one to a key is the one that stays. *)
Lemma fold_insert_lookup (get : string -> Q) l : forall (d : gmap string Q) k,
  fold_left (fun d e => <[prop_key e := get e]> d) l d !! k =
  match last (List.filter (fun e => String.eqb (prop_key e) k) l) with
  | Some e => Some (get e)
  | None => d !! k
  end.
Proof.
  induction l as [|e l IH]; intros d k; [reflexivity|].
  cbn [fold_left List.filter]. rewrite IH.
  destruct (String.eqb_spec (prop_key e) k) as [E|E].
  - rewrite last_cons. destruct (last _); [reflexivity|].
    rewrite <- E. apply lookup_insert_eq.
  - destruct (last _); [reflexivity|]. apply lookup_insert_ne. exact E.
Qed.

End Properties.

(** X16: [get_properties] files each attribute of [cv2] whose name contains
    CAP_PROP under the lower-cased name less its first twelve characters.
    A key therefore holds the value of the last such attribute, in the
    order of [dir(cv2)], that has this key, attributes with the same tail
    overwrite one another, and every name of at most twelve characters
    (CAP_PROP_FPS is one) is filed under the empty key. *)
Theorem get_properties_last_name_wins s names get cap :
  capture s = Some cap ->
  exists d,
    get_properties names get s = Ok (Some d) s /\
    (forall k,
       d !! k =
       get <$> last (List.filter
                       (fun e => contains "CAP_PROP" e
                                 && String.eqb (prop_key e) k) names)) /\
    (forall e, (String.length e <= 12)%nat -> prop_key e = EmptyString).
Proof.
  intros Hc. unfold get_properties. step. eexists. conjs; [reflexivity | |].
  - intros k. rewrite fold_insert_lookup, filter_filter.
    destruct (last _); reflexivity.
  - intros e Hl. unfold prop_key. rewrite drop_chars_short by exact Hl.
    reflexivity.
Qed.

Lemma get_properties_last_name_wins_witness :
  capture fresh = Some demo_device /\
  exists d,
    get_properties
      ["CAP_PROP_FPS"; "CAP_PROP_FRAME_WIDTH"; "CAP_PROP_PAN"; "VideoCapture"]%string
      (fun e => if String.eqb e "CAP_PROP_PAN" then 7 # 1 else 30 # 1) fresh
      = Ok (Some d) fresh /\
    d !! EmptyString = Some (7 # 1) /\
    d !! "me_width"%string = Some (30 # 1) /\
    d !! "fps"%string = None.
Proof.
  split; [reflexivity|].
  destruct (get_properties_last_name_wins fresh
              ["CAP_PROP_FPS"; "CAP_PROP_FRAME_WIDTH"; "CAP_PROP_PAN";
               "VideoCapture"]%string
              (fun e => if String.eqb e "CAP_PROP_PAN" then 7 # 1 else 30 # 1)
              demo_device eq_refl) as (d & Hg & Hk & _).
  exists d. conjs; [exact Hg | | |]; rewrite Hk; vm_compute; reflexivity.
Defined.

(** ** The rate at a steady cadence *)

Section Cadence.



End Cadence.

(** X17: the rate is never negative, whatever the clock does: it is 0
    when there are fewer than two samples and when the newest sample is
    not later than the oldest. *)
Theorem rate_is_never_negative (dts : list datetime) :
  (0 <= fr_of dts)%Q /\
  ((length dts < 2)%nat -> fr_of dts = 0%Q) /\
  (forall first newest,
     head dts = Some first -> last dts = Some newest -> newest <= first ->
     fr_of dts = 0%Q).
Proof.
  conjs.
  - unfold fr_of. destruct (1 <? length dts)%nat; [|apply Qle_refl].
    destruct (head dts) as [a|]; [|apply Qle_refl].
    destruct (last dts) as [b|]; [|apply Qle_refl].
    destruct (Qlt_le_dec 0 (total_seconds (b - a))) as [Hp|_]; [|apply Qle_refl].
    apply Qle_shift_div_l; [exact Hp|]. rewrite Qmult_0_l.
    unfold Qle. cbn. lia.
  - apply fr_of_few.
  - intros first newest Hh Ht Hle.
    destruct (Nat.lt_ge_cases (length dts) 2) as [Hl|Hl];
      [apply fr_of_few; exact Hl|].
    apply (proj2 (fr_of_elapsed dts first newest Hl Hh Ht)). exact Hle.
Qed.

Lemma rate_is_never_negative_witness :
  (0 <= fr_of [5%Z; 3%Z])%Q /\ fr_of [5%Z; 3%Z] = 0%Q.
Proof.
  destruct (rate_is_never_negative [5%Z; 3%Z]) as (H1 & _ & H3).
  split; [exact H1|].
  apply (H3 5%Z 3%Z); [reflexivity | reflexivity | lia].
Defined.



(** ** Frames and notifications while saving *)

Section Saving.
Context {P : Platform}.


End Saving.



(** X20: when [stop_saving] gives up on a recorder that never writes, the
    frames it could not save stay in the queue: the queue after is the
    queue before, and the next call of [get_recframe], by whichever
    recorder comes next, is handed the oldest of them. *)
Theorem unsaved_frames_stay_queued {P : Platform} s rc l' now n x q :
  mutex s = false -> recording s = Some rc ->
  remove_first (rec_id rc) (slots s) = Some l' ->
  recframes s = x :: q -> (10 <= n)%nat ->
  exists s',
    stop_saving now (repeat idle n) s = Ok tt s' /\
    recframes s' = x :: q /\
    get_recframe s' = Ok (Some x) (set_recframes q s').
Proof.
  intros Hm Hr Hcon Hq Hn.
  destruct (proj2 (stop_saving_stalled now s rc l' n Hm Hr Hcon
                     ltac:(congruence)) Hn)
    as (s' & Hs & _ & _ & _ & _ & Hm' & Hq').
  exists s'. conjs; [exact Hs | congruence |].
  apply get_recframe_cons; [exact Hm' | congruence].
Qed.

Lemma unsaved_frames_stay_queued_witness :
  (mutex five_queued = false /\
   recording five_queued = Some session_recorder /\
   remove_first (rec_id session_recorder) (slots five_queued) = Some [] /\
   head (recframes five_queued) = Some (1%nat, "0" +:+ nl) /\
   (10 <= 10)%nat) /\
  exists s',
    stop_saving (P := demo_platform) 0 (repeat idle 10) five_queued = Ok tt s' /\
    length (recframes s') = 5%nat.
Proof.
  split; [conjs; try reflexivity; lia|].
  destruct (unsaved_frames_stay_queued (P := demo_platform) five_queued
              session_recorder [] 0 10 (1%nat, "0" +:+ nl)
              (tail (recframes five_queued))
              eq_refl eq_refl eq_refl eq_refl ltac:(lia))
    as (s' & Hs & Hq & _).
  exists s'. split; [exact Hs|]. rewrite Hq. reflexivity.
Defined.
